(** * trader_analysis.py: sentiment buckets, profit/loss cleaning, join and aggregates

    A shallow embedding of [src/trader_analysis.py].  The script is written
    against pandas 2.x (it passes [format='mixed'] to [pd.to_datetime]); the
    library calls it makes are modelled here on the values they return
    (a call that pandas itself would reject, such as an epoch value out of
    the timestamp range, is outside the model):

    - a float64 is identified with the real number it denotes (a rational),
      or one of [inf], [-inf], [nan]; binary rounding and the range of a
      double are outside the model, comparisons with the integer constants
      of the script are exact;
    - a text column has dtype [object] and holds [str] items, with the float
      [nan] for an empty cell, as [pd.read_csv] produces them;
    - column names are distinct within a table;
    - strings are byte strings. *)

From Stdlib Require Import List String Ascii ZArith QArith Bool Lia Lqa.
From Stdlib Require Import DecimalString.
Import ListNotations.
Open Scope string_scope.

(** ** Python values *)

Inductive pyfloat : Type :=
| Fin (q : Q)
| PosInf
| NegInf
| NaN.

(** The items a pandas column hands to Python code. *)
Inductive pyobj : Type :=
| PInt (z : Z)
| PFloat (f : pyfloat)
| PBool (b : bool)
| PStr (s : string)
| PNone.

Definition Qltb (x y : Q) : bool := negb (Qle_bool y x).

(** [a < b] on floats: every comparison with [nan] is false. *)
Definition float_lt (a b : pyfloat) : bool :=
  match a, b with
  | NaN, _ | _, NaN => false
  | Fin x, Fin y => Qltb x y
  | NegInf, NegInf => false
  | NegInf, _ => true
  | _, NegInf => false
  | PosInf, _ => false
  | Fin _, PosInf => true
  end.

(** [a > b] is [b < a]. *)
Definition float_gt (a b : pyfloat) : bool := float_lt b a.

Definition float_isnan (a : pyfloat) : bool :=
  match a with NaN => true | _ => false end.

(** ** Text helpers *)

Definition is_digit (c : ascii) : bool :=
  let n := nat_of_ascii c in (48 <=? n)%nat && (n <=? 57)%nat.

Definition digit_val (c : ascii) : Z := Z.of_nat (nat_of_ascii c) - 48.

(** [str.isspace] on the ASCII range, as [str.strip] uses it. *)
Definition is_space (c : ascii) : bool :=
  let n := nat_of_ascii c in
  ((9 <=? n)%nat && (n <=? 13)%nat) || ((28 <=? n)%nat && (n <=? 32)%nat).

Definition lower_ascii (c : ascii) : ascii :=
  let n := nat_of_ascii c in
  if (65 <=? n)%nat && (n <=? 90)%nat then ascii_of_nat (n + 32) else c.

Fixpoint lstrip (l : list ascii) : list ascii :=
  match l with
  | c :: l' => if is_space c then lstrip l' else l
  | [] => []
  end.

Definition strip_chars (l : list ascii) : list ascii :=
  rev (lstrip (rev (lstrip l))).

(** [c.lower()] and [c.strip()]. *)
Definition lower (s : string) : string :=
  string_of_list_ascii (map lower_ascii (list_ascii_of_string s)).

Definition strip (s : string) : string :=
  string_of_list_ascii (strip_chars (list_ascii_of_string s)).

Fixpoint starts_with (p l : list ascii) : bool :=
  match p, l with
  | [], _ => true
  | a :: p', b :: l' => Ascii.eqb a b && starts_with p' l'
  | _ :: _, [] => false
  end.

Fixpoint contains_chars (p l : list ascii) : bool :=
  starts_with p l ||
  match l with
  | [] => false
  | _ :: l' => contains_chars p l'
  end.

(** [p in s] on strings. *)
Definition str_in (p s : string) : bool :=
  contains_chars (list_ascii_of_string p) (list_ascii_of_string s).

(** [s.replace(c, '')] for a one-character pattern: pandas 2.x
    [Series.str.replace] has [regex=False], so the pattern is literal. *)
Definition remove_char (c : ascii) (l : list ascii) : list ascii :=
  filter (fun a => negb (Ascii.eqb a c)) l.

Definition str_remove (c : ascii) (s : string) : string :=
  string_of_list_ascii (remove_char c (list_ascii_of_string s)).

(** ** Numeric literals

    The grammar shared by Python's [float(str)] and the string parser behind
    [pd.to_numeric]: optional surrounding white space, an optional sign, then
    [inf], [infinity] or [nan] in any case, or digits with an optional
    fraction and an optional exponent.  Python also accepts single
    underscores between digits; pandas does not. *)

Fixpoint digit_tail (us : bool) (l : list ascii) : list ascii * list ascii :=
  match l with
  | c :: l' =>
      if is_digit c then
        let '(ds, r) := digit_tail us l' in (c :: ds, r)
      else if us && Ascii.eqb c "_" then
        match l' with
        | d :: l'' =>
            if is_digit d then
              let '(ds, r) := digit_tail us l'' in (d :: ds, r)
            else ([], l)
        | [] => ([], l)
        end
      else ([], l)
  | [] => ([], [])
  end.

(** A possibly empty run of digits. *)
Definition digits_opt (us : bool) (l : list ascii) : list ascii * list ascii :=
  match l with
  | c :: l' =>
      if is_digit c then let '(ds, r) := digit_tail us l' in (c :: ds, r)
      else ([], l)
  | [] => ([], [])
  end.

Definition digits_to_Z (ds : list ascii) : Z :=
  fold_left (fun acc c => 10 * acc + digit_val c)%Z ds 0%Z.

Definition pow10 (e : Z) : Q :=
  match e with
  | Z0 => 1
  | Zpos p => inject_Z (Z.pow_pos 10 p)
  | Zneg p => 1 # (Pos.pow 10 p)
  end.

Definition parse_sign (l : list ascii) : bool * list ascii :=
  match l with
  | c :: l' =>
      if Ascii.eqb c "-" then (true, l')
      else if Ascii.eqb c "+" then (false, l')
      else (false, l)
  | [] => (false, [])
  end.

(** The exponent part: absent, or [e]/[E], an optional sign and digits. *)
Definition parse_exponent (us : bool) (l : list ascii)
  : option (Z * list ascii) :=
  match l with
  | c :: l' =>
      if Ascii.eqb (lower_ascii c) "e" then
        let '(neg, l1) := parse_sign l' in
        match digits_opt us l1 with
        | ([], _) => None
        | (ds, r) =>
            Some ((if neg then - digits_to_Z ds else digits_to_Z ds)%Z, r)
        end
      else Some (0%Z, l)
  | [] => Some (0%Z, [])
  end.

Definition parse_unsigned (us : bool) (l : list ascii) : option Q :=
  let '(ip, l1) := digits_opt us l in
  let '(fp, l2) :=
    match l1 with
    | c :: l1' => if Ascii.eqb c "." then digits_opt us l1' else ([], l1)
    | [] => ([], [])
    end in
  match (ip ++ fp)%list with
  | [] => None
  | ds =>
      match parse_exponent us l2 with
      | Some (e, []) =>
          Some (Qred (inject_Z (digits_to_Z ds)
                      * pow10 (e - Z.of_nat (List.length fp))))
      | _ => None
      end
  end.

Definition parse_special (l : list ascii) : option pyfloat :=
  let w := string_of_list_ascii (map lower_ascii l) in
  if String.eqb w "inf" || String.eqb w "infinity" then Some PosInf
  else if String.eqb w "nan" then Some NaN
  else None.

Definition float_neg (f : pyfloat) : pyfloat :=
  match f with
  | Fin q => Fin (Qred (- q))
  | PosInf => NegInf
  | NegInf => PosInf
  | NaN => NaN
  end.

(** The white space [float(str)] and the parser of [pd.to_numeric] skip
    around a number: the C [isspace] set. *)
Definition is_float_space (c : ascii) : bool :=
  let n := nat_of_ascii c in
  ((9 <=? n)%nat && (n <=? 13)%nat) || (n =? 32)%nat.

Fixpoint lstrip_float (l : list ascii) : list ascii :=
  match l with
  | c :: l' => if is_float_space c then lstrip_float l' else l
  | [] => []
  end.

Definition strip_float (l : list ascii) : list ascii :=
  rev (lstrip_float (rev (lstrip_float l))).

Definition parse_float (us : bool) (s : string) : option pyfloat :=
  let '(neg, l) := parse_sign (strip_float (list_ascii_of_string s)) in
  let r :=
    match parse_special l with
    | Some f => Some f
    | None => option_map Fin (parse_unsigned us l)
    end in
  if neg then option_map float_neg r else r.

(** Python's [float(val)]; [None] stands for the exception it raises
    ([ValueError] on text that is no number, [TypeError] on [None]). *)
Definition py_float (val : pyobj) : option pyfloat :=
  match val with
  | PInt z => Some (Fin (inject_Z z))
  | PFloat f => Some f
  | PBool b => Some (Fin (if b then 1 else 0))
  | PStr s => parse_float true s
  | PNone => None
  end.

(** ** get_bucket (lines 151-158) *)

Definition get_bucket (val : pyobj) : string :=
  match py_float val with
  | Some v =>
      if float_lt v (Fin 25) then "Extreme Fear"
      else if float_lt v (Fin 50) then "Fear"
      else if float_lt v (Fin 75) then "Greed"
      else "Extreme Greed"
  | None => "Unknown"
  end.

(** ** Columns and frames *)

(** An item of an [object] column: text, the float [nan] of an empty cell,
    or [None]. *)
Inductive objitem : Type :=
| OStr (s : string)
| ONan
| ONone.

(** A column with its dtype. *)
Inductive series : Type :=
| SInt64 (l : list Z)
| SFloat64 (l : list pyfloat)
| SBool (l : list bool)
| SObject (l : list objitem).

(** A table as [pd.read_csv] returns it: named columns, in order. *)
Definition table : Type := list (string * series).

(** A cleaned frame.  [date_key] is the column the loader derives (a
    timestamp in milliseconds at midnight, [None] for [NaT]); [columns] are
    the other columns.  The loader's helper columns ([datetime],
    [date_key_raw], [date_key]) are kept out of [columns]: no test of the
    analyzer on a column name ([pnl], [leverage], [value], [pnl_clean],
    [lev_clean], [sentiment_value], [sentiment_bucket]) can select them. *)
Record DataFrame : Type := mkDF {
  date_key : list (option Z);
  columns : table
}.

Definition obj_to_py (o : objitem) : pyobj :=
  match o with
  | OStr s => PStr s
  | ONan => PFloat NaN
  | ONone => PNone
  end.

(** The Python values [Series.apply] passes to its function. *)
Definition series_items (s : series) : list pyobj :=
  match s with
  | SInt64 l => map PInt l
  | SFloat64 l => map PFloat l
  | SBool l => map PBool l
  | SObject l => map obj_to_py l
  end.

Definition series_len (s : series) : nat :=
  match s with
  | SInt64 l => List.length l
  | SFloat64 l => List.length l
  | SBool l => List.length l
  | SObject l => List.length l
  end.

(** [s.dtype == object] *)
Definition is_object (s : series) : bool :=
  match s with SObject _ => true | _ => false end.

(** Rows picked by position, in the order of [idx]. *)
Definition take {A : Type} (idx : list nat) (l : list A) : list A :=
  flat_map (fun i => match nth_error l i with Some x => [x] | None => [] end)
           idx.

Definition series_take (idx : list nat) (s : series) : series :=
  match s with
  | SInt64 l => SInt64 (take idx l)
  | SFloat64 l => SFloat64 (take idx l)
  | SBool l => SBool (take idx l)
  | SObject l => SObject (take idx l)
  end.

Definition names (t : table) : list string := map fst t.

Definition name_in (c : string) (l : list string) : bool :=
  existsb (String.eqb c) l.

(** [df[c]]: the first column of that name. *)
Fixpoint get_column (c : string) (t : table) : option series :=
  match t with
  | [] => None
  | (n, s) :: t' => if String.eqb n c then Some s else get_column c t'
  end.

(** [df[c] = s]: replaces the column in place, or appends it. *)
Fixpoint set_column (c : string) (s : series) (t : table) : table :=
  match t with
  | [] => [(c, s)]
  | (n, s0) :: t' =>
      if String.eqb n c then (c, s) :: t' else (n, s0) :: set_column c s t'
  end.

(** [next((c for c in df.columns if p(c)), None)] *)
Definition first_column (p : string -> bool) (t : table) : option string :=
  find p (names t).

Definition nrows (df : DataFrame) : nat := List.length (date_key df).

(** ** The inner join on [date_key] (line 121) *)

Definition key_eqb (a b : option Z) : bool :=
  match a, b with
  | Some x, Some y => Z.eqb x y
  | None, None => true
  | _, _ => false
  end.

Definition enumerate {A : Type} (l : list A) : list (nat * A) :=
  combine (seq 0 (List.length l)) l.

(** Positions in [rk] whose key equals [k]. *)
Definition matches (k : option Z) (rk : list (option Z)) : list nat :=
  map fst (filter (fun jk => key_eqb k (snd jk)) (enumerate rk)).

(** The row pairs of the inner join, in the order of the left rows. *)
Definition join_pairs (lk rk : list (option Z)) : list (nat * nat) :=
  flat_map (fun ik => map (fun j => (fst ik, j)) (matches (snd ik) rk))
           (enumerate lk).

(** A column name present on both sides gets the suffix [_x] on the left
    and [_y] on the right. *)
Definition suffixed (sfx : string) (other : list string) (c : string)
  : string :=
  if name_in c other then c ++ sfx else c.

Definition merge_inner (l r : DataFrame) : DataFrame :=
  let ps := join_pairs (date_key l) (date_key r) in
  let li := map fst ps in
  let ri := map snd ps in
  mkDF (take li (date_key l))
       (map (fun cs => (suffixed "_x" (names (columns r)) (fst cs),
                        series_take li (snd cs))) (columns l)
        ++ map (fun cs => (suffixed "_y" (names (columns l)) (fst cs),
                           series_take ri (snd cs))) (columns r))%list.

(** [df.empty]: the merged frame always has its key column, so it is empty
    exactly when it has no row. *)
Definition df_empty (df : DataFrame) : bool :=
  match date_key df with [] => true | _ :: _ => false end.

(** ** Numeric coercion and cleaning *)

(** [astype(str)] on an item of an [object] column. *)
Definition astype_str (o : objitem) : string :=
  match o with
  | OStr s => s
  | ONan => "nan"
  | ONone => "None"
  end.

(** [pd.to_numeric(..., errors='coerce')] on one string: text that does not
    parse becomes [nan]. *)
Definition to_numeric_str (s : string) : pyfloat :=
  match parse_float false s with
  | Some f => f
  | None => NaN
  end.

(** Line 134 on one item:
    [astype(str).str.replace(',', '').str.replace('$', '')], then coercion. *)
Definition clean_text (o : objitem) : string :=
  str_remove "$" (str_remove "," (astype_str o)).

Definition clean_pnl_item (o : objitem) : pyfloat :=
  to_numeric_str (clean_text o).

Definition to_numeric_item (o : objitem) : pyfloat :=
  match o with
  | OStr s => to_numeric_str s
  | ONan | ONone => NaN
  end.

(** [pd.to_numeric(col, errors='coerce')]: a numeric column is returned as
    it is. *)
Definition to_numeric_coerce (s : series) : series :=
  match s with
  | SObject l => SFloat64 (map to_numeric_item l)
  | _ => s
  end.

(** [col.notna().any()] *)
Definition notna_any (s : series) : bool :=
  match s with
  | SInt64 l => negb (Nat.eqb (List.length l) 0)
  | SBool l => negb (Nat.eqb (List.length l) 0)
  | SFloat64 l => existsb (fun f => negb (float_isnan f)) l
  | SObject l =>
      existsb (fun o => match o with OStr _ => true | _ => false end) l
  end.

Definition bool_to_float (b : bool) : pyfloat := Fin (if b then 1 else 0).

(** The values of a numeric column; an [object] column has none (arithmetic
    and comparison on it raise [TypeError]). *)
Definition numeric_values (s : series) : option (list pyfloat) :=
  match s with
  | SInt64 l => Some (map (fun z => Fin (inject_Z z)) l)
  | SFloat64 l => Some l
  | SBool l => Some (map bool_to_float l)
  | SObject _ => None
  end.

(** [col > 0], row by row. *)
Definition is_win (v : pyfloat) : bool := float_gt v (Fin 0).

Definition series_gt0 (s : series) : option (list bool) :=
  option_map (map is_win) (numeric_values s).

(** ** Grouped means (lines 170-172 and 219-221) *)

Definition float_add (a b : pyfloat) : pyfloat :=
  match a, b with
  | NaN, _ | _, NaN => NaN
  | Fin x, Fin y => Fin (x + y)
  | PosInf, NegInf | NegInf, PosInf => NaN
  | PosInf, _ | _, PosInf => PosInf
  | NegInf, _ | _, NegInf => NegInf
  end.

Definition float_div_nat (a : pyfloat) (n : nat) : pyfloat :=
  match a with
  | Fin x => Fin (x / inject_Z (Z.of_nat n))
  | _ => a
  end.

Definition float_sum (l : list pyfloat) : pyfloat :=
  fold_left float_add l (Fin 0).

(** [mean()] of a group: missing values are left out of both the sum and
    the count; a group with no value left has mean [nan]. *)
Definition mean_skipna (l : list pyfloat) : pyfloat :=
  match filter (fun f => negb (float_isnan f)) l with
  | [] => NaN
  | x :: xs => float_div_nat (float_sum (x :: xs)) (S (List.length xs))
  end.

(** The group label of each row.  Only text can equal one of the four names
    the results are reindexed to. *)
Definition series_labels (s : series) : list (option string) :=
  match s with
  | SObject l =>
      map (fun o => match o with OStr t => Some t | _ => None end) l
  | _ => map (fun _ => None) (series_items s)
  end.

Definition label_is (x : string) (l : option string) : bool :=
  match l with
  | Some t => String.eqb t x
  | None => false
  end.

(** The rows of group [x]. *)
Definition group_rows {A : Type} (x : string) (labels : list (option string))
  (vals : list A) : list A :=
  map snd (filter (fun lv => label_is x (fst lv)) (combine labels vals)).

Definition group_mean (x : string) (labels : list (option string))
  (vals : list pyfloat) : pyfloat :=
  mean_skipna (group_rows x labels vals).

Definition order : list string :=
  ["Extreme Fear"; "Fear"; "Greed"; "Extreme Greed"].

(** [g = df.groupby(k)[c].mean(); g.reindex([x for x in order if x in g.index])] *)
Definition grouped_means (labels : list (option string))
  (vals : list pyfloat) : list (string * pyfloat) :=
  map (fun x => (x, group_mean x labels vals))
      (filter (fun x => existsb (label_is x) labels) order).

(** ** Effects: console, input files, chart files, exceptions *)

Inductive chart : Type :=
| BarChart (file : string) (bars : list (string * pyfloat))
| ScatterChart (file : string) (xs ys : series).

Record world : Type := mkWorld {
  files : string -> option table;   (* the files that exist, as read_csv reads them *)
  images_dir : bool;                (* os.path.exists('images') *)
  console : list string;            (* printed lines, oldest first *)
  charts : list chart               (* images written by savefig, oldest first *)
}.

Inductive exn : Type :=
| KeyError (k : string)
| TypeError.

Inductive result (A : Type) : Type :=
| Ok (a : A)
| Raise (e : exn).
Arguments Ok {A} a.
Arguments Raise {A} e.

Definition M (A : Type) : Type := world -> result A * world.

Definition ret {A : Type} (a : A) : M A := fun w => (Ok a, w).

Definition bind {A B : Type} (m : M A) (f : A -> M B) : M B :=
  fun w =>
    match m w with
    | (Ok a, w') => f a w'
    | (Raise e, w') => (Raise e, w')
    end.

Notation "x <- c1 ;; c2" := (bind c1 (fun x => c2))
  (at level 61, c1 at next level, right associativity).
Notation "c1 ;; c2" := (bind c1 (fun _ => c2))
  (at level 61, right associativity).

Definition raise {A : Type} (e : exn) : M A := fun w => (Raise e, w).

Definition print (msg : string) : M unit :=
  fun w => (Ok tt,
            mkWorld (files w) (images_dir w) (console w ++ [msg]) (charts w)).

Definition savefig (c : chart) : M unit :=
  fun w => (Ok tt,
            mkWorld (files w) (images_dir w) (console w) (charts w ++ [c])).

(** [if not os.path.exists('images'): os.makedirs('images')] *)
Definition ensure_images_dir : M unit :=
  fun w =>
    if images_dir w then (Ok tt, w)
    else (Ok tt, mkWorld (files w) true (console w) (charts w)).

(** [os.path.exists(p)] and [pd.read_csv(p)] *)
Definition read_file (p : string) : M (option table) :=
  fun w => (Ok (files w p), w).

(** [df[c]] *)
Definition getitem (c : string) (t : table) : M series :=
  match get_column c t with
  | Some s => ret s
  | None => raise (KeyError c)
  end.

Definition has_column (c : string) (df : DataFrame) : bool :=
  name_in c (names (columns df)).

Definition assign (c : string) (s : series) (df : DataFrame) : DataFrame :=
  mkDF (date_key df) (set_column c s (columns df)).

Definition nl : string := String (ascii_of_nat 10) EmptyString.

Definition show_nat (n : nat) : string :=
  NilEmpty.string_of_uint (Nat.to_uint n).

(** ** analyze_and_visualize (lines 117-241) *)

(** The tests of the column searches of lines 131, 141 and 148. *)
Definition is_pnl_name (c : string) : bool :=
  str_in "closed pnl" c || str_in "closed_pnl" c || str_in "pnl" c.

Definition is_leverage_name (c : string) : bool := str_in "leverage" c.

Definition is_value_name (c : string) : bool :=
  str_in "value" c && negb (str_in "size" c).

(** Lines 131-138. *)
Definition map_pnl (merged_df : DataFrame) : M DataFrame :=
  match first_column is_pnl_name (columns merged_df) with
  | Some pnl_col =>
      col <- getitem pnl_col (columns merged_df) ;;
      match col with
      | SObject l =>
          ret (assign "pnl_clean" (SFloat64 (map clean_pnl_item l)) merged_df)
      | _ => ret (assign "pnl_clean" col merged_df)
      end
  | None =>
      print "WARNING: PnL column not found." ;;
      ret merged_df
  end.

(** Lines 141-145. *)
Definition map_leverage (merged_df : DataFrame) : M DataFrame :=
  match first_column is_leverage_name (columns merged_df) with
  | Some lev_col =>
      col <- getitem lev_col (columns merged_df) ;;
      ret (assign "lev_clean" (to_numeric_coerce col) merged_df)
  | None =>
      ret (assign "lev_clean" (SObject (repeat ONone (nrows merged_df)))
                  merged_df)
  end.

Definition apply_get_bucket (s : series) : series :=
  SObject (map (fun v => OStr (get_bucket v)) (series_items s)).

(** Lines 148-159. *)
Definition map_sentiment (merged_df : DataFrame) : M DataFrame :=
  match first_column is_value_name (columns merged_df) with
  | Some val_col =>
      col <- getitem val_col (columns merged_df) ;;
      let merged_df := assign "sentiment_value" col merged_df in
      sv <- getitem "sentiment_value" (columns merged_df) ;;
      ret (assign "sentiment_bucket" (apply_get_bucket sv) merged_df)
  | None => ret merged_df
  end.

(** [df.groupby('sentiment_bucket')[c].mean()], reindexed. *)
Definition groupby_mean (keys vals : series)
  : M (list (string * pyfloat)) :=
  match numeric_values vals with
  | Some vs => ret (grouped_means (series_labels keys) vs)
  | None => raise TypeError
  end.

(** Plot 1, lines 169-196. *)
Definition plot_pnl (merged_df : DataFrame) : M unit :=
  if has_column "pnl_clean" merged_df
     && has_column "sentiment_bucket" merged_df then
    keys <- getitem "sentiment_bucket" (columns merged_df) ;;
    vals <- getitem "pnl_clean" (columns merged_df) ;;
    perf <- groupby_mean keys vals ;;
    savefig (BarChart "images/pnl_by_sentiment.png" perf) ;;
    print "-> Saved professional images/pnl_by_sentiment.png"
  else ret tt.

(** Plot 2, lines 199-214. *)
Definition plot_leverage (merged_df : DataFrame) : M unit :=
  if match get_column "lev_clean" (columns merged_df) with
     | Some lev => notna_any lev
     | None => false
     end then
    xs <- getitem "sentiment_value" (columns merged_df) ;;
    ys <- getitem "lev_clean" (columns merged_df) ;;
    savefig (ScatterChart "images/leverage_vs_sentiment.png" xs ys) ;;
    print "-> Saved professional images/leverage_vs_sentiment.png"
  else print "-> Leverage column missing. Skipping leverage plot.".

(** Plot 3, lines 217-239.  The frame is returned with its [is_win]
    column. *)
Definition plot_win_rate (merged_df : DataFrame) : M DataFrame :=
  if has_column "pnl_clean" merged_df
     && has_column "sentiment_bucket" merged_df then
    pnl <- getitem "pnl_clean" (columns merged_df) ;;
    wins <- match series_gt0 pnl with
            | Some ws => ret ws
            | None => raise TypeError
            end ;;
    let merged_df := assign "is_win" (SBool wins) merged_df in
    keys <- getitem "sentiment_bucket" (columns merged_df) ;;
    vals <- getitem "is_win" (columns merged_df) ;;
    win_rate <- groupby_mean keys vals ;;
    savefig (BarChart "images/win_rate_by_sentiment.png" win_rate) ;;
    print "-> Saved professional images/win_rate_by_sentiment.png" ;;
    ret merged_df
  else ret merged_df.

(** The Python function returns nothing; the model returns the final value
    of its local [merged_df], so that statements can mention the derived
    columns. *)
Definition analyze_and_visualize (trader_df sentiment_df : DataFrame)
  : M DataFrame :=
  print (nl ++ "--- 2. MERGING & MAPPING ---") ;;
  let merged_df := merge_inner trader_df sentiment_df in
  print ("Merged Rows: " ++ show_nat (nrows merged_df)) ;;
  if df_empty merged_df then
    print "ERROR: Merged DataFrame is still empty." ;;
    ret merged_df
  else
    merged_df <- map_pnl merged_df ;;
    merged_df <- map_leverage merged_df ;;
    merged_df <- map_sentiment merged_df ;;
    print (nl ++ "--- 3. GENERATING PROFESSIONAL PLOTS ---") ;;
    ensure_images_dir ;;
    plot_pnl merged_df ;;
    plot_leverage merged_df ;;
    merged_df <- plot_win_rate merged_df ;;
    print (nl ++ "SUCCESS: Analysis Finished.") ;;
    ret merged_df.

(** ** load_and_clean_data (lines 45-112) and the entry point *)

Definition TRADER_DATA_PATH : string := "data/historical_data.csv".
Definition SENTIMENT_DATA_PATH : string := "data/fear_greed_index.csv".

(** [pd.api.types.is_numeric_dtype] *)
Definition is_numeric_dtype (s : series) : bool := negb (is_object s).

Definition normalize_columns (t : table) : table :=
  map (fun cs => (strip (lower (fst cs)), snd cs)) t.

Definition day_ms : Z := 86400000.

(** [.dt.normalize()]: the time of day is set to midnight. *)
Definition normalize_day (t : option Z) : option Z :=
  option_map (fun ms => ms - ms mod day_ms)%Z t.

Definition series_filter (mask : list bool) (s : series) : series :=
  let keep {A : Type} (l : list A) :=
    map snd (filter fst (combine mask l)) in
  match s with
  | SInt64 l => SInt64 (keep l)
  | SFloat64 l => SFloat64 (keep l)
  | SBool l => SBool (keep l)
  | SObject l => SObject (keep l)
  end.

Definition is_some {A : Type} (o : option A) : bool :=
  match o with Some _ => true | None => false end.

(** [df['date_key'] = keys], then [df.dropna(subset=['date_key'])]. *)
Definition with_date_key (helpers : list string) (keys : list (option Z))
  (t : table) : DataFrame :=
  let mask := map is_some keys in
  mkDF (filter is_some keys)
       (map (fun cs => (fst cs, series_filter mask (snd cs)))
            (filter (fun cs => negb (name_in (fst cs) helpers)) t)).

Definition opt_bin (f : Z -> Z -> Z) (a b : option Z) : option Z :=
  match a, b with
  | Some x, Some y => Some (f x y)
  | Some x, None => Some x
  | None, _ => b
  end.

(** [col.min()] and [col.max()]; [NaT] on an empty column. *)
Definition date_min (l : list (option Z)) : option Z :=
  fold_left (opt_bin Z.min) l None.
Definition date_max (l : list (option Z)) : option Z :=
  fold_left (opt_bin Z.max) l None.

(** [a < b] on timestamps: false when either is [NaT]. *)
Definition date_lt (a b : option Z) : bool :=
  match a, b with
  | Some x, Some y => Z.ltb x y
  | _, _ => false
  end.

Section Loader.

(** The date parsers of pandas, one value per row, [None] for [NaT]:
    [pd.to_datetime(col, unit='ms')] and
    [pd.to_datetime(col, dayfirst=True, format='mixed', errors='coerce')];
    and the text of [t.date()] in an f-string.  They are library code and
    stay abstract; the first is taken where it returns. *)
Variable to_datetime_ms : series -> list (option Z).
Variable to_datetime_mixed : series -> list (option Z).
Variable show_date : option Z -> string.

(** [if os.path.exists(p): read p elif os.path.exists(q): read q] *)
Definition load_input (primary fallback : string) : M (option table) :=
  t <- read_file primary ;;
  match t with
  | Some _ => ret t
  | None => read_file fallback
  end.

(** Lines 73-81; [None] is the early return. *)
Definition trader_datetime (trader_df : table)
  : M (option (list (option Z))) :=
  if name_in "timestamp" (names trader_df)
     && match get_column "timestamp" trader_df with
        | Some col => is_numeric_dtype col
        | None => false
        end then
    print "-> Using numeric 'timestamp' column for Trader Data..." ;;
    col <- getitem "timestamp" trader_df ;;
    ret (Some (to_datetime_ms col))
  else if name_in "timestamp ist" (names trader_df) then
    print "-> Using string 'timestamp ist' column for Trader Data..." ;;
    col <- getitem "timestamp ist" trader_df ;;
    ret (Some (to_datetime_mixed col))
  else
    print "ERROR: Could not find a recognizable time column in Trader Data." ;;
    ret None.

(** Lines 84-92. *)
Definition sentiment_datetime (sentiment_df : table)
  : M (option (list (option Z))) :=
  if name_in "date" (names sentiment_df) then
    print "-> Using 'date' column for Sentiment Data..." ;;
    col <- getitem "date" sentiment_df ;;
    ret (Some (to_datetime_mixed col))
  else if name_in "timestamp" (names sentiment_df) then
    print "-> Using 'timestamp' column for Sentiment Data..." ;;
    col <- getitem "timestamp" sentiment_df ;;
    ret (Some (to_datetime_mixed col))
  else
    print "ERROR: Could not find a recognizable date column in Sentiment Data." ;;
    ret None.

(** Lines 95-112. *)
Definition finish_load (trader_df sentiment_df : table)
  (datetime date_key_raw : list (option Z))
  : M (option DataFrame * option DataFrame) :=
  let trader_df :=
    with_date_key ["datetime"; "date_key"]
                  (map normalize_day datetime) trader_df in
  let sentiment_df :=
    with_date_key ["date_key_raw"; "date_key"]
                  (map normalize_day date_key_raw) sentiment_df in
  let t_min := date_min (date_key trader_df) in
  let t_max := date_max (date_key trader_df) in
  let s_min := date_min (date_key sentiment_df) in
  let s_max := date_max (date_key sentiment_df) in
  print (nl ++ "[DEBUG] Trader Data Date Range:    "
            ++ show_date t_min ++ " to " ++ show_date t_max) ;;
  print ("[DEBUG] Sentiment Data Date Range: "
            ++ show_date s_min ++ " to " ++ show_date s_max) ;;
  (if date_lt t_max s_min || date_lt s_max t_min then
     print (nl ++ "CRITICAL WARNING: The date ranges do NOT overlap.")
   else ret tt) ;;
  ret (Some trader_df, Some sentiment_df).

Definition load_and_clean_data : M (option DataFrame * option DataFrame) :=
  print "--- 1. LOADING & DIAGNOSING DATA ---" ;;
  t <- load_input TRADER_DATA_PATH "historical_data.csv" ;;
  match t with
  | None =>
      print "CRITICAL ERROR: Could not find trader data." ;;
      ret (None, None)
  | Some trader_df =>
      s <- load_input SENTIMENT_DATA_PATH "fear_greed_index.csv" ;;
      match s with
      | None =>
          print "CRITICAL ERROR: Could not find sentiment data." ;;
          ret (None, None)
      | Some sentiment_df =>
          let trader_df := normalize_columns trader_df in
          let sentiment_df := normalize_columns sentiment_df in
          td <- trader_datetime trader_df ;;
          match td with
          | None => ret (None, None)
          | Some datetime =>
              sd <- sentiment_datetime sentiment_df ;;
              match sd with
              | None => ret (None, None)
              | Some date_key_raw =>
                  finish_load trader_df sentiment_df datetime date_key_raw
              end
          end
      end
  end.

(** Lines 243-246. *)
Definition main : M unit :=
  r <- load_and_clean_data ;;
  match r with
  | (Some t_df, Some s_df) =>
      analyze_and_visualize t_df s_df ;; ret tt
  | _ => ret tt
  end.

End Loader.

(** ** Specification-side definitions and sample inputs *)

(** The bucket the thresholds give to a score, in the words of the
    data model. *)
Definition spec_bucket (q : Q) (b : string) : Prop :=
  (q < 25 /\ b = "Extreme Fear") \/
  (25 <= q /\ q < 50 /\ b = "Fear") \/
  (50 <= q /\ q < 75 /\ b = "Greed") \/
  (75 <= q /\ b = "Extreme Greed").


(** A character the cleaning of line 134 keeps. *)
Definition kept_char (a : ascii) : bool :=
  negb (Ascii.eqb a ",") && negb (Ascii.eqb a "$").

Definition empty_world : world := mkWorld (fun _ => None) false [] [].

(** One trade on day 0 and a sentiment row of that day. *)
Definition one_trade (pnl : series) : DataFrame :=
  mkDF [Some 0%Z] [("closed pnl", pnl)].

Definition one_score (value : series) : DataFrame :=
  mkDF [Some 0%Z] [("value", value)].

(** A merged frame with boundary scores. *)
Definition boundary_scores : DataFrame :=
  mkDF [Some 0%Z; Some 0%Z; Some 0%Z]
       [("value", SInt64 [25; 50; 75]%Z)].

(** A merged frame with text profit/loss values. *)
Definition text_pnl : DataFrame :=
  mkDF [Some 0%Z; Some 0%Z]
       [("closed pnl", SObject [OStr "$1,234.50"; OStr "n/a"])].

(** [k] occurs among the keys [l]. *)
Definition key_in (k : option Z) (l : list (option Z)) : bool :=
  existsb (key_eqb k) l.

(** How many rows of [l] carry the key [k]. *)
Definition count_key (k : option Z) (l : list (option Z)) : nat :=
  List.length (filter (key_eqb k) l).

(** The rows of the table with keys [lk] whose date key lies in the
    intersection of the two key sets. *)
Definition rows_in_intersection (lk rk : list (option Z)) : nat :=
  List.length (filter (fun k => key_in k lk && key_in k rk) lk).

(** The pairs of a row of each table with equal date keys. *)
Definition matching_pairs (lk rk : list (option Z)) : nat :=
  list_sum (map (fun k => count_key k rk) lk).

(** Three trades on day 0, and a sentiment table with two rows for it. *)
Definition three_trades : DataFrame :=
  mkDF [Some 0%Z; Some 0%Z; Some 0%Z]
       [("closed pnl", SInt64 [1; 2; 3]%Z)].

Definition two_scores_same_day : DataFrame :=
  mkDF [Some 0%Z; Some 0%Z] [("value", SInt64 [20; 80]%Z)].

(** Trades on days 0, 0 and 1, scores for days 1 and 2. *)
Definition trades_days_001 : DataFrame :=
  mkDF [Some 0%Z; Some 0%Z; Some 86400000%Z]
       [("closed pnl", SInt64 [1; 2; 3]%Z)].

Definition scores_days_12 : DataFrame :=
  mkDF [Some 86400000%Z; Some 172800000%Z]
       [("value", SInt64 [20; 80]%Z)].

(** The world after some more lines were printed. *)
Definition log (lines : list string) (w : world) : world :=
  mkWorld (files w) (images_dir w) (console w ++ lines) (charts w).

(** What the two [if/elif] chains of lines 49-64 read: the configured path
    if it exists, else the bare file name in the current directory. *)
Definition trader_input (w : world) : option table :=
  match files w TRADER_DATA_PATH with
  | Some t => Some t
  | None => files w "historical_data.csv"
  end.

Definition sentiment_input (w : world) : option table :=
  match files w SENTIMENT_DATA_PATH with
  | Some t => Some t
  | None => files w "fear_greed_index.csv"
  end.

(** A recognizable time column in the trader table: a numeric [timestamp]
    or a [timestamp ist]; in the sentiment table: [date] or [timestamp]. *)
Definition trader_time_found (t : table) : bool :=
  (name_in "timestamp" (names t)
   && match get_column "timestamp" t with
      | Some col => is_numeric_dtype col
      | None => false
      end)
  || name_in "timestamp ist" (names t).

Definition sentiment_date_found (t : table) : bool :=
  name_in "date" (names t) || name_in "timestamp" (names t).

(** The input configurations of the loader's four failures. *)
Definition load_fails (w : world) : Prop :=
  trader_input w = None \/
  sentiment_input w = None \/
  (exists t, trader_input w = Some t /\
             trader_time_found (normalize_columns t) = false) \/
  (exists s, sentiment_input w = Some s /\
             sentiment_date_found (normalize_columns s) = false).

Definition error_messages : list string :=
  ["CRITICAL ERROR: Could not find trader data.";
   "CRITICAL ERROR: Could not find sentiment data.";
   "ERROR: Could not find a recognizable time column in Trader Data.";
   "ERROR: Could not find a recognizable date column in Sentiment Data."].

(** Only the trader file exists, under its fallback name, and it has a
    text [Timestamp] column. *)
Definition trader_only_world : world :=
  mkWorld (fun p => if String.eqb p "historical_data.csv"
                    then Some [(" Timestamp ", SObject [OStr "x"])]
                    else None)
          false [] [].

(** The world after a chart was written and some lines printed. *)
Definition with_chart (c : chart) (w : world) : world :=
  mkWorld (files w) (images_dir w) (console w) (charts w ++ [c]).

(** Per bucket [x]: all its rows, its winning rows, and its rows whose
    profit/loss is not missing. *)
Definition rows_of (x : string) (labels : list (option string)) : nat :=
  List.length (filter (label_is x) labels).

Definition wins_of (x : string) (labels : list (option string))
  (vs : list pyfloat) : nat :=
  List.length (filter is_win (group_rows x labels vs)).

Definition valued_of (x : string) (labels : list (option string))
  (vs : list pyfloat) : nat :=
  List.length (filter (fun v => negb (float_isnan v))
                      (group_rows x labels vs)).

(** A merged frame with a win, a zero, a loss and a missing profit/loss in
    one bucket. *)
Definition mixed_pnl : DataFrame :=
  mkDF [Some 0%Z; Some 0%Z; Some 0%Z; Some 0%Z]
       [("pnl_clean", SFloat64 [Fin 5; Fin 0; Fin (-2); NaN]);
        ("sentiment_bucket",
         SObject [OStr "Fear"; OStr "Fear"; OStr "Fear"; OStr "Fear"])].

(** The number of [True] in a Boolean column. *)
Definition count_true (bs : list bool) : nat :=
  List.length (filter (fun b => b) bs).

(** A sentiment table whose score column has a name the search of line 148
    does not recognize. *)
Definition scores_unnamed : DataFrame :=
  mkDF [Some 0%Z] [("score", SInt64 [20%Z])].

(** A merged frame with none of the derived columns. *)
Definition bare_frame : DataFrame :=
  mkDF [Some 0%Z] [("size usd", SInt64 [7%Z])].

(** A merged frame with leverage values but no sentiment score. *)
Definition leverage_only : DataFrame :=
  mkDF [Some 0%Z] [("lev_clean", SInt64 [3%Z])].

(** Two worlds hold the same input files. *)
Definition same_inputs (w1 w2 : world) : Prop :=
  forall p, files w1 p = files w2 p.

(** Two runs of [m] from worlds related by [R] return the same result,
    leave worlds related by [R], and write the same charts. *)
Definition agree {A : Type} (R : world -> world -> Prop) (m : M A) : Prop :=
  forall w1 w2, R w1 w2 ->
    fst (m w1) = fst (m w2) /\
    R (snd (m w1)) (snd (m w2)) /\
    exists cs, charts (snd (m w1)) = (charts w1 ++ cs)%list /\
               charts (snd (m w2)) = (charts w2 ++ cs)%list.

(** Sample date parsers: an integer column holds epoch milliseconds, the
    text "d" is day [d] for one digit. *)
Definition sample_ms (s : series) : list (option Z) :=
  match s with
  | SInt64 l => map Some l
  | _ => map (fun _ => None) (series_items s)
  end.

Definition sample_mixed (s : series) : list (option Z) :=
  match s with
  | SObject l =>
      map (fun o => match o with
                    | OStr (String c EmptyString) =>
                        if is_digit c then Some (digit_val c * day_ms)%Z
                        else None
                    | _ => None
                    end) l
  | _ => map (fun _ => None) (series_items s)
  end.

Definition sample_show (t : option Z) : string :=
  match t with
  | Some ms => show_nat (Z.to_nat (ms / day_ms))
  | None => "NaT"
  end.

Definition sample_files (p : string) : option table :=
  if String.eqb p "data/historical_data.csv" then
    Some [("Timestamp", SInt64 [5; 86400007; 86400008]%Z);
          ("Closed PnL", SObject [OStr "$1,234.50"; OStr "-3"; OStr ""])]
  else if String.eqb p "fear_greed_index.csv" then
    Some [("date", SObject [OStr "0"; OStr "1"]);
          ("value", SInt64 [20; 80]%Z)]
  else None.

Definition fresh_world : world := mkWorld sample_files false [] [].

Definition used_world : world :=
  mkWorld sample_files true ["an earlier line"]
          [BarChart "images/old.png" []].

(** ** Further definitions: frames, chart styling, bar labels *)

(** Every column has one value per row. *)
Definition well_formed (df : DataFrame) : Prop :=
  Forall (fun cs => series_len (snd cs) = nrows df) (columns df).

(** A date key that is a timestamp at midnight (not [NaT]). *)
Definition is_midnight (k : option Z) : bool :=
  match k with
  | Some ms => Z.eqb (ms mod day_ms) 0
  | None => false
  end.

(** The frame after each of the three mapping steps of lines 131-159. *)
Definition pnl_clean_of (col : series) : series :=
  match col with
  | SObject l => SFloat64 (map clean_pnl_item l)
  | _ => col
  end.

Definition pnl_step (m : DataFrame) : DataFrame :=
  match first_column is_pnl_name (columns m) with
  | Some c =>
      match get_column c (columns m) with
      | Some col => assign "pnl_clean" (pnl_clean_of col) m
      | None => m
      end
  | None => m
  end.

Definition lev_clean_of (m : DataFrame) : series :=
  match first_column is_leverage_name (columns m) with
  | Some c =>
      match get_column c (columns m) with
      | Some col => to_numeric_coerce col
      | None => SObject (repeat ONone (nrows m))
      end
  | None => SObject (repeat ONone (nrows m))
  end.

Definition lev_step (m : DataFrame) : DataFrame :=
  assign "lev_clean" (lev_clean_of m) m.

Definition val_step (m : DataFrame) : DataFrame :=
  match first_column is_value_name (columns m) with
  | Some c =>
      match get_column c (columns m) with
      | Some col =>
          assign "sentiment_bucket" (apply_get_bucket col)
                 (assign "sentiment_value" col m)
      | None => m
      end
  | None => m
  end.

(** [sentiment_palette] (lines 21-26). *)
Definition sentiment_palette : list (string * string) :=
  [("Extreme Fear", "#d62728");
   ("Fear", "#ff7f0e");
   ("Greed", "#2ca02c");
   ("Extreme Greed", "#1f77b4")].

(** [a >= b] on floats: false when either is [nan]. *)
Definition float_ge (a b : pyfloat) : bool :=
  match a, b with
  | NaN, _ | _, NaN => false
  | _, _ => negb (float_lt a b)
  end.

(** A bar of a chart ([ax.patches]) and a text label ([ax.annotate]). *)
Record patch : Type := mkPatch {
  patch_x : Q;
  patch_width : Q;
  patch_height : pyfloat
}.

Record annotation : Type := mkAnnotation {
  ann_text : string;
  ann_xy : Q * pyfloat;
  ann_xytext : Z * Z
}.

(** [add_bar_labels] (lines 28-40): one label per bar, at the middle of
    the bar's top, moved 8 points up if the height is at least 0 and 20
    points down otherwise.  [fmt] is [fmt.format], library code. *)
Definition add_bar_labels (fmt : pyfloat -> string) (patches : list patch)
  : list annotation :=
  map (fun p =>
         let height := patch_height p in
         let xy_pos := if float_ge height (Fin 0) then (0, 8)%Z
                       else (0, -20)%Z in
         mkAnnotation (fmt height)
                      (patch_x p + patch_width p / 2, height)
                      xy_pos)
      patches.

(** One trade with a leverage value on day 0. *)
Definition leveraged_trade : DataFrame :=
  mkDF [Some 0%Z] [("leverage", SInt64 [3%Z])].

(** The condition of the warning of lines 109-110. *)
Definition ranges_disjoint (lk rk : list (option Z)) : bool :=
  date_lt (date_max lk) (date_min rk) || date_lt (date_max rk) (date_min lk).

(** Every column of a table read from a file has [n] rows. *)
Definition table_rows (n : nat) (t : table) : Prop :=
  Forall (fun cs => series_len (snd cs) = n) t.

(** The two tables of [sample_files] and the frames the loader makes of
    them. *)
Definition sample_trader_table : table :=
  [("Timestamp", SInt64 [5; 86400007; 86400008]%Z);
   ("Closed PnL", SObject [OStr "$1,234.50"; OStr "-3"; OStr ""])].

Definition sample_sentiment_table : table :=
  [("date", SObject [OStr "0"; OStr "1"]);
   ("value", SInt64 [20; 80]%Z)].

Definition sample_trader_frame : DataFrame :=
  mkDF [Some 0%Z; Some 86400000%Z; Some 86400000%Z]
       [("timestamp", SInt64 [5; 86400007; 86400008]%Z);
        ("closed pnl", SObject [OStr "$1,234.50"; OStr "-3"; OStr ""])].

Definition sample_sentiment_frame : DataFrame :=
  mkDF [Some 0%Z; Some 86400000%Z]
       [("date", SObject [OStr "0"; OStr "1"]);
        ("value", SInt64 [20; 80]%Z)].

(** Both tables have a column named [value]. *)
Definition trade_with_value : DataFrame :=
  mkDF [Some 0%Z] [("value", SInt64 [90%Z])].

(** Two bars, as a bar plot of the sample win rates draws them. *)
Definition sample_patches : list patch :=
  [mkPatch (-4 # 10) (8 # 10) (Fin 1); mkPatch (6 # 10) (8 # 10) (Fin 0)].

(** The values of a group that are numbers, in order, and whether the group
    is free of infinities. *)
Definition finite_values (l : list pyfloat) : list Q :=
  flat_map (fun v => match v with Fin q => [q] | _ => [] end) l.

Definition no_infinity (l : list pyfloat) : bool :=
  forallb (fun v => match v with PosInf | NegInf => false | _ => true end) l.

Definition Qsum (qs : list Q) : Q := fold_left Qplus qs 0.

(** The mean of the numbers of a group, [nan] when there is none. *)
Definition mean_of_values (l : list pyfloat) : pyfloat :=
  match finite_values l with
  | [] => NaN
  | q :: qs =>
      Fin (Qsum (q :: qs) / inject_Z (Z.of_nat (S (List.length qs))))
  end.

(** A merged frame with a missing profit/loss in a bucket of three rows. *)
Definition pnl_with_gap : DataFrame :=
  mkDF [Some 0%Z; Some 0%Z; Some 0%Z]
       [("pnl_clean", SFloat64 [Fin 4; NaN; Fin 2]);
        ("sentiment_bucket", SObject [OStr "Greed"; OStr "Greed"; OStr "Greed"])].

(** ** Conditions under which the model follows pandas exactly *)

(** A header made of ASCII characters only: on such text [str.lower] and
    [str.strip] are the byte-wise functions above. *)
Definition is_ascii_string (s : string) : bool :=
  forallb (fun c => (nat_of_ascii c <? 128)%nat) (list_ascii_of_string s).

Definition ascii_headers (t : table) : Prop :=
  Forall (fun cs => is_ascii_string (fst cs) = true) t.

(** The names of the loader's helper columns. *)
Definition helper_names : list string :=
  ["datetime"; "date_key_raw"; "date_key"].

(** The merged frame has distinct column names and no column of either
    table carries a helper name: [pd.merge] then renames no helper column
    and accepts the suffixed names, and [df[c]] is one column. *)
Definition plain_names (trader_df sentiment_df : DataFrame) : Prop :=
  NoDup (names (columns (merge_inner trader_df sentiment_df))) /\
  forall h, In h helper_names ->
            ~ In h (names (columns trader_df)) /\
            ~ In h (names (columns sentiment_df)).

(** The position of the first row of [rk] whose key is [k]. *)
Fixpoint key_index (k : option Z) (rk : list (option Z)) : nat :=
  match rk with
  | [] => 0
  | x :: rk' => if key_eqb k x then 0 else S (key_index k rk')
  end.

(** The leverage scatter Plot 2 writes, if it writes one. *)
Definition leverage_charts (m : DataFrame) (score : series) : list chart :=
  if notna_any (lev_clean_of m)
  then [ScatterChart "images/leverage_vs_sentiment.png" score
                     (lev_clean_of m)]
  else [].
(** * Properties *)

(** ** Basic facts *)

Example parse_float_samples :
  parse_float true "12.5" = Some (Fin (25 # 2)) /\
  parse_float true " -3e2 " = Some (Fin (-300)) /\
  parse_float true "1_000" = Some (Fin 1000) /\
  parse_float false "1_000" = None /\
  parse_float true ".5" = Some (Fin (1 # 2)) /\
  parse_float true "5." = Some (Fin 5) /\
  parse_float true "." = None /\
  parse_float true "abc" = None /\
  parse_float true "" = None /\
  parse_float true "1e" = None /\
  parse_float true "-Infinity" = Some NegInf /\
  parse_float true "NaN" = Some NaN /\
  parse_float true "1.5e-1" = Some (Fin (3 # 20)).
Proof. repeat split; vm_compute; reflexivity. Qed.

Lemma Qltb_lt (x y : Q) : Qltb x y = true <-> x < y.
Proof.
  unfold Qltb. rewrite negb_true_iff. split; intro H.
  - apply Qnot_le_lt. intro L. apply Qle_bool_iff in L. congruence.
  - destruct (Qle_bool y x) eqn:E; [|reflexivity].
    apply Qle_bool_iff in E. exfalso. exact (Qlt_not_le _ _ H E).
Qed.

Lemma Qltb_ge (x y : Q) : Qltb x y = false <-> y <= x.
Proof.
  unfold Qltb. rewrite negb_false_iff. apply Qle_bool_iff.
Qed.

Lemma key_eqb_eq (a b : option Z) : key_eqb a b = true <-> a = b.
Proof.
  destruct a as [x|], b as [y|]; simpl; split; intro H;
    try discriminate; try reflexivity.
  - apply Z.eqb_eq in H. now subst.
  - injection H as ->. apply Z.eqb_refl.
Qed.

Lemma get_set_same (c : string) (s : series) (t : table) :
  get_column c (set_column c s t) = Some s.
Proof.
  induction t as [|[n s0] t IH]; simpl.
  - now rewrite String.eqb_refl.
  - destruct (String.eqb n c) eqn:E; simpl.
    + now rewrite String.eqb_refl.
    + now rewrite E.
Qed.

Lemma get_set_other (c d : string) (s : series) (t : table) :
  c <> d -> get_column d (set_column c s t) = get_column d t.
Proof.
  intro N. induction t as [|[n s0] t IH]; simpl.
  - destruct (String.eqb c d) eqn:E; [|reflexivity].
    apply String.eqb_eq in E. contradiction.
  - destruct (String.eqb n c) eqn:E; simpl.
    + apply String.eqb_eq in E. subst n.
      destruct (String.eqb c d) eqn:E'; [|reflexivity].
      apply String.eqb_eq in E'. contradiction.
    + now rewrite IH.
Qed.

Lemma name_in_In (c : string) (l : list string) :
  name_in c l = true <-> In c l.
Proof.
  unfold name_in. rewrite existsb_exists. split.
  - intros [x [I E]]. apply String.eqb_eq in E. now subst.
  - intro I. exists c. split; [assumption | apply String.eqb_refl].
Qed.

Lemma get_column_In (c : string) (t : table) :
  In c (names t) -> exists s, get_column c t = Some s.
Proof.
  induction t as [|[n s0] t IH]; simpl; [tauto|].
  intros [E | I].
  - subst n. rewrite String.eqb_refl. now exists s0.
  - destruct (String.eqb n c); [now exists s0 | now apply IH].
Qed.

Lemma get_column_None (c : string) (t : table) :
  name_in c (names t) = false -> get_column c t = None.
Proof.
  induction t as [|[n s0] t IH]; simpl; [reflexivity|].
  rewrite String.eqb_sym. destruct (String.eqb n c); simpl; [discriminate|].
  exact IH.
Qed.

Lemma names_set_column (c : string) (s : series) (t : table) :
  name_in c (names (set_column c s t)) = true.
Proof.
  apply name_in_In.
  induction t as [|[n s0] t IH]; simpl; [now left|].
  destruct (String.eqb n c) eqn:E; simpl; [now left | now right].
Qed.

Lemma print_log (msg : string) (w : world) :
  print msg w = (Ok tt, log [msg] w).
Proof. reflexivity. Qed.

Lemma log_log (l1 l2 : list string) (w : world) :
  log l2 (log l1 w) = log (l1 ++ l2) w.
Proof. unfold log. cbn. now rewrite app_assoc. Qed.

Lemma get_column_has (c : string) (s : series) (df : DataFrame) :
  get_column c (columns df) = Some s -> has_column c df = true.
Proof.
  intro G. unfold has_column.
  destruct (name_in c (names (columns df))) eqn:E; [reflexivity|].
  apply get_column_None in E. congruence.
Qed.

Lemma first_column_get (p : string -> bool) (t : table) (c : string) :
  first_column p t = Some c -> exists s, get_column c t = Some s.
Proof.
  unfold first_column. intro H. apply find_some in H.
  apply get_column_In. tauto.
Qed.

(** The mapping steps, when the column they look for is there. *)
Lemma map_sentiment_found (merged_df : DataFrame) (w : world)
  (val_col : string) (col : series) :
  first_column is_value_name (columns merged_df) = Some val_col ->
  get_column val_col (columns merged_df) = Some col ->
  map_sentiment merged_df w =
    (Ok (assign "sentiment_bucket" (apply_get_bucket col)
                (assign "sentiment_value" col merged_df)), w).
Proof.
  intros F G. unfold map_sentiment, bind, getitem. rewrite F, G.
  unfold ret. cbn [assign columns]. rewrite get_set_same. reflexivity.
Qed.

(** ** Sentiment buckets *)

Lemma get_bucket_thresholds (val : pyobj) (q : Q) :
  py_float val = Some (Fin q) -> spec_bucket q (get_bucket val).
Proof.
  intro H. unfold get_bucket, spec_bucket. rewrite H. simpl.
  destruct (Qltb q 25) eqn:E1.
  { apply Qltb_lt in E1. now left. }
  apply Qltb_ge in E1.
  destruct (Qltb q 50) eqn:E2.
  { apply Qltb_lt in E2. right. left. tauto. }
  apply Qltb_ge in E2.
  destruct (Qltb q 75) eqn:E3.
  { apply Qltb_lt in E3. right. right. left. tauto. }
  apply Qltb_ge in E3. right. right. right. tauto.
Qed.

Lemma spec_bucket_unique (q : Q) (b b' : string) :
  spec_bucket q b -> spec_bucket q b' -> b = b'.
Proof.
  unfold spec_bucket.
  intros [[A ->]|[[A [B ->]]|[[A [B ->]]|[A ->]]]]
         [[A' ->]|[[A' [B' ->]]|[[A' [B' ->]]|[A' ->]]]];
    try reflexivity; exfalso; lra.
Qed.

Example get_bucket_infinite :
  get_bucket (PFloat PosInf) = "Extreme Greed" /\
  get_bucket (PFloat NegInf) = "Extreme Fear".
Proof. split; reflexivity. Qed.

(** C1. For a merged row whose sentiment score is numeric ([float(val)]
    is a finite number [q]: an integer or a finite float of the score
    column), the value [map_sentiment] stores in [sentiment_bucket] for that
    row is the bucket the thresholds give to [q]: Extreme Fear below 25, Fear
    in [25,50), Greed in [50,75), Extreme Greed from 75 on, so that 25, 50
    and 75 fall in the upper bucket; and no other bucket fits [q]. *)
Theorem C1_bucket_of_numeric_score (merged_df : DataFrame) (w : world)
  (val_col : string) (col : series) (i : nat) (val : pyobj) (q : Q) :
  first_column is_value_name (columns merged_df) = Some val_col ->
  get_column val_col (columns merged_df) = Some col ->
  nth_error (series_items col) i = Some val ->
  py_float val = Some (Fin q) ->
  exists df' bcol,
    map_sentiment merged_df w = (Ok df', w) /\
    get_column "sentiment_bucket" (columns df') = Some bcol /\
    nth_error (series_items bcol) i = Some (PStr (get_bucket val)) /\
    spec_bucket q (get_bucket val) /\
    (forall b, spec_bucket q b -> b = get_bucket val) /\
    (q == 25 -> get_bucket val = "Fear") /\
    (q == 50 -> get_bucket val = "Greed") /\
    (q == 75 -> get_bucket val = "Extreme Greed").
Proof.
  intros F G N P.
  pose proof (get_bucket_thresholds val q P) as S.
  assert (U : forall b, spec_bucket q b -> b = get_bucket val).
  { intros b Hb. exact (spec_bucket_unique q _ _ Hb S). }
  exists (assign "sentiment_bucket" (apply_get_bucket col)
                 (assign "sentiment_value" col merged_df)),
         (apply_get_bucket col).
  split; [exact (map_sentiment_found merged_df w val_col col F G)|].
  split; [cbn [assign columns]; apply get_set_same|].
  split.
  { unfold apply_get_bucket. cbn [series_items]. rewrite map_map.
    exact (map_nth_error (fun x => obj_to_py (OStr (get_bucket x))) i
             (series_items col) N). }
  split; [exact S|]. split; [exact U|].
  repeat split; intro E; symmetry; apply U; unfold spec_bucket.
  - right. left. repeat split; lra.
  - right. right. left. repeat split; lra.
  - right. right. right. split; [lra | reflexivity].
Qed.

Lemma C1_bucket_of_numeric_score_witness :
  exists df' bcol,
    map_sentiment boundary_scores empty_world = (Ok df', empty_world) /\
    get_column "sentiment_bucket" (columns df') = Some bcol /\
    nth_error (series_items bcol) 0 = Some (PStr (get_bucket (PInt 25))) /\
    spec_bucket 25 (get_bucket (PInt 25)) /\
    (forall b, spec_bucket 25 b -> b = get_bucket (PInt 25)) /\
    (25 == 25 -> get_bucket (PInt 25) = "Fear") /\
    (25 == 50 -> get_bucket (PInt 25) = "Greed") /\
    (25 == 75 -> get_bucket (PInt 25) = "Extreme Greed").
Proof.
  apply (C1_bucket_of_numeric_score boundary_scores empty_world "value"
           (SInt64 [25; 50; 75]%Z) 0 (PInt 25) 25);
    reflexivity.
Defined.

(** C2, at the failing input.  A missing sentiment score is the float [nan]
    ([pd.read_csv] stores an empty cell so): [float(nan)] raises nothing and
    every comparison with [nan] is false, so [get_bucket] falls through to
    Extreme Greed instead of Unknown; the analyzer stores that bucket for the
    row.  [None] and text that is no number do give Unknown. *)
Theorem C2_missing_score_bucket :
  get_bucket (PFloat NaN) = "Extreme Greed" /\
  get_bucket PNone = "Unknown" /\
  get_bucket (PStr "n/a") = "Unknown" /\
  option_map (fun df => get_column "sentiment_bucket" (columns df))
    (match fst (analyze_and_visualize (one_trade (SInt64 [10%Z]))
                  (one_score (SFloat64 [NaN])) empty_world) with
     | Ok df => Some df
     | Raise _ => None
     end)
  = Some (Some (SObject [OStr "Extreme Greed"])).
Proof. repeat split; vm_compute; reflexivity. Qed.

(** ** Cleaning of text profit/loss values *)

Lemma filter_filter {A : Type} (f g : A -> bool) (l : list A) :
  filter f (filter g l) = filter (fun x => g x && f x) l.
Proof.
  induction l as [|x l IH]; simpl; [reflexivity|].
  destruct (g x); simpl; [destruct (f x)|]; now rewrite IH.
Qed.

Lemma clean_text_filter (s : string) :
  clean_text (OStr s) =
  string_of_list_ascii (filter kept_char (list_ascii_of_string s)).
Proof.
  unfold clean_text, str_remove, remove_char, astype_str.
  rewrite list_ascii_of_string_of_list_ascii, filter_filter. reflexivity.
Qed.

Lemma map_pnl_object (merged_df : DataFrame) (w : world) (pnl_col : string)
  (l : list objitem) :
  first_column is_pnl_name (columns merged_df) = Some pnl_col ->
  get_column pnl_col (columns merged_df) = Some (SObject l) ->
  map_pnl merged_df w =
    (Ok (assign "pnl_clean" (SFloat64 (map clean_pnl_item l)) merged_df), w).
Proof.
  intros F G. unfold map_pnl, bind, getitem. rewrite F, G. reflexivity.
Qed.

(** Whatever [map_pnl] stores in [pnl_clean] is a numeric column, and
    without a profit/loss column there is no [pnl_clean]. *)
Lemma pnl_clean_numeric (merged_df df' : DataFrame) (w w' : world)
  (pnl : series) :
  map_pnl merged_df w = (Ok df', w') ->
  get_column "pnl_clean" (columns df') = Some pnl ->
  exists vs, numeric_values pnl = Some vs.
Proof.
  unfold map_pnl, bind, getitem.
  destruct (first_column is_pnl_name (columns merged_df)) as [c|] eqn:F.
  - destruct (get_column c (columns merged_df)) as [col|];
      [|discriminate].
    unfold ret. intros E G.
    destruct col; injection E as <- _; cbn [assign columns] in G;
      rewrite get_set_same in G; injection G as <-;
      eexists; reflexivity.
  - rewrite print_log. unfold ret. intros E G. injection E as <- _.
    exfalso. unfold first_column in F.
    assert (I : In "pnl_clean" (names (columns merged_df))).
    { apply name_in_In. exact (get_column_has _ _ _ G). }
    pose proof (find_none _ _ F _ I) as N. vm_compute in N. discriminate.
Qed.

(** C3. When the profit/loss column is text (dtype object), [map_pnl]
    raises nothing and stores in [pnl_clean], for each entry, the coercion of
    the entry's text with every comma and every dollar sign removed and all
    other characters kept in order; text that does not parse as a number
    becomes the missing marker [nan]; and "$1,234.50" cleans to 1234.50. *)
Theorem C3_pnl_text_cleaning (merged_df : DataFrame) (w : world)
  (pnl_col : string) (l : list objitem) :
  first_column is_pnl_name (columns merged_df) = Some pnl_col ->
  get_column pnl_col (columns merged_df) = Some (SObject l) ->
  exists df',
    map_pnl merged_df w = (Ok df', w) /\
    get_column "pnl_clean" (columns df') =
      Some (SFloat64 (map clean_pnl_item l)) /\
    (forall s,
        clean_text (OStr s) =
          string_of_list_ascii (filter kept_char (list_ascii_of_string s)) /\
        (forall c, In c (list_ascii_of_string (clean_text (OStr s))) ->
                   c <> ","%char /\ c <> "$"%char) /\
        clean_pnl_item (OStr s) =
          match parse_float false (clean_text (OStr s)) with
          | Some f => f
          | None => NaN
          end) /\
    clean_pnl_item (OStr "$1,234.50") = Fin (2469 # 2) /\
    2469 # 2 == 1234.50.
Proof.
  intros F G.
  exists (assign "pnl_clean" (SFloat64 (map clean_pnl_item l)) merged_df).
  split; [exact (map_pnl_object merged_df w pnl_col l F G)|].
  split; [cbn [assign columns]; apply get_set_same|].
  split.
  - intro s. split; [apply clean_text_filter|]. split; [|reflexivity].
    intros c I. rewrite clean_text_filter in I.
    rewrite list_ascii_of_string_of_list_ascii in I.
    apply filter_In in I. destruct I as [_ K]. unfold kept_char in K.
    apply andb_true_iff in K. destruct K as [K1 K2].
    apply negb_true_iff in K1, K2.
    split; intro E; subst c; simpl in *; discriminate.
  - split; [vm_compute; reflexivity | reflexivity].
Qed.

Lemma C3_pnl_text_cleaning_witness :
  exists df',
    map_pnl text_pnl empty_world = (Ok df', empty_world) /\
    get_column "pnl_clean" (columns df') =
      Some (SFloat64 (map clean_pnl_item [OStr "$1,234.50"; OStr "n/a"])) /\
    (forall s,
        clean_text (OStr s) =
          string_of_list_ascii (filter kept_char (list_ascii_of_string s)) /\
        (forall c, In c (list_ascii_of_string (clean_text (OStr s))) ->
                   c <> ","%char /\ c <> "$"%char) /\
        clean_pnl_item (OStr s) =
          match parse_float false (clean_text (OStr s)) with
          | Some f => f
          | None => NaN
          end) /\
    clean_pnl_item (OStr "$1,234.50") = Fin (2469 # 2) /\
    2469 # 2 == 1234.50.
Proof.
  apply (C3_pnl_text_cleaning text_pnl empty_world "closed pnl"
           [OStr "$1,234.50"; OStr "n/a"]); reflexivity.
Defined.

(** ** The inner join *)

Lemma take_app {A : Type} (i j : list nat) (l : list A) :
  take (i ++ j) l = (take i l ++ take j l)%list.
Proof. unfold take. apply flat_map_app. Qed.

Lemma take_const {A : Type} (n : nat) (x : A) (l : list A) (js : list nat) :
  nth_error l n = Some x ->
  take (map fst (map (fun j => (n, j)) js)) l = repeat x (List.length js).
Proof.
  intro H. induction js as [|j js IH]; simpl; [reflexivity|].
  rewrite H. simpl. f_equal. exact IH.
Qed.

Lemma matches_length_from (k : option Z) (rk : list (option Z)) (n : nat) :
  List.length
    (filter (fun jk : nat * option Z => key_eqb k (snd jk))
            (combine (seq n (List.length rk)) rk))
  = count_key k rk.
Proof.
  unfold count_key. revert n.
  induction rk as [|x rk IH]; intro n; simpl; [reflexivity|].
  destruct (key_eqb k x); simpl; now rewrite IH.
Qed.

Lemma matches_length (k : option Z) (rk : list (option Z)) :
  List.length (matches k rk) = count_key k rk.
Proof.
  unfold matches, enumerate. rewrite length_map. apply matches_length_from.
Qed.

Lemma take_join_from (rk pre lk : list (option Z)) :
  take (map fst
          (flat_map (fun ik : nat * option Z =>
                       map (fun j => (fst ik, j)) (matches (snd ik) rk))
                    (combine (seq (List.length pre) (List.length lk)) lk)))
       (pre ++ lk)
  = flat_map (fun k => repeat k (count_key k rk)) lk.
Proof.
  revert pre. induction lk as [|k lk IH]; intro pre; simpl; [reflexivity|].
  rewrite map_app, take_app. f_equal.
  - rewrite (take_const (List.length pre) k).
    + now rewrite matches_length.
    + rewrite nth_error_app2 by lia. now rewrite Nat.sub_diag.
  - specialize (IH (pre ++ [k])%list).
    rewrite length_app in IH. simpl in IH.
    rewrite Nat.add_1_r, <- app_assoc in IH. exact IH.
Qed.

(** The key column of the join: each left key, once per matching right
    row. *)
Lemma merge_date_key (l r : DataFrame) :
  date_key (merge_inner l r)
  = flat_map (fun k => repeat k (count_key k (date_key r))) (date_key l).
Proof.
  unfold merge_inner. cbn [date_key]. unfold join_pairs, enumerate.
  exact (take_join_from (date_key r) [] (date_key l)).
Qed.

Lemma length_flat_repeat (f : option Z -> nat) (l : list (option Z)) :
  List.length (flat_map (fun k => repeat k (f k)) l) = list_sum (map f l).
Proof.
  induction l as [|k l IH]; simpl; [reflexivity|].
  now rewrite length_app, repeat_length, IH.
Qed.

Lemma merge_nrows (l r : DataFrame) :
  nrows (merge_inner l r) = matching_pairs (date_key l) (date_key r).
Proof.
  unfold nrows, matching_pairs. rewrite merge_date_key.
  apply length_flat_repeat.
Qed.

Lemma key_in_In (k : option Z) (l : list (option Z)) :
  key_in k l = true <-> In k l.
Proof.
  unfold key_in. rewrite existsb_exists. split.
  - intros [x [I E]]. apply key_eqb_eq in E. now subst.
  - intro I. exists k. split; [assumption | now apply key_eqb_eq].
Qed.

Lemma count_key_zero (k : option Z) (l : list (option Z)) :
  ~ In k l -> count_key k l = 0%nat.
Proof.
  unfold count_key. induction l as [|x l IH]; simpl; [reflexivity|].
  intro N. destruct (key_eqb k x) eqn:E.
  - apply key_eqb_eq in E. subst. exfalso. apply N. now left.
  - apply IH. intro I. apply N. now right.
Qed.

Lemma count_key_pos (k : option Z) (l : list (option Z)) :
  In k l -> (0 < count_key k l)%nat.
Proof.
  unfold count_key. induction l as [|x l IH]; simpl; [tauto|].
  intros [E | I].
  - subst. replace (key_eqb k k) with true by (symmetry; now apply key_eqb_eq).
    simpl. lia.
  - destruct (key_eqb k x); simpl; [lia | now apply IH].
Qed.

Lemma count_key_nodup (k : option Z) (l : list (option Z)) :
  NoDup l -> count_key k l = if key_in k l then 1%nat else 0%nat.
Proof.
  intro N. destruct (key_in k l) eqn:E.
  - apply key_in_In in E. revert E.
    induction N as [|x l X N IH]; simpl; [tauto|].
    unfold count_key. simpl. intros [E | I].
    + subst. replace (key_eqb k k) with true
        by (symmetry; now apply key_eqb_eq).
      simpl. f_equal. now apply count_key_zero.
    + destruct (key_eqb k x) eqn:E.
      * apply key_eqb_eq in E. subst. contradiction.
      * now apply IH.
  - apply count_key_zero. intro I. apply key_in_In in I. congruence.
Qed.

Lemma merge_keys_in_both (l r : DataFrame) (k : option Z) :
  In k (date_key (merge_inner l r)) ->
  In k (date_key l) /\ In k (date_key r).
Proof.
  rewrite merge_date_key, in_flat_map. intros [x [I R]].
  apply repeat_spec in R as E. subst x. split; [assumption|].
  destruct (key_in k (date_key r)) eqn:K; [now apply key_in_In|].
  rewrite count_key_zero in R; [destruct R|].
  intro J. apply key_in_In in J. congruence.
Qed.

Lemma merge_disjoint_empty (l r : DataFrame) :
  (forall k, In k (date_key l) -> ~ In k (date_key r)) ->
  date_key (merge_inner l r) = [].
Proof.
  intro D. rewrite merge_date_key.
  induction (date_key l) as [|k ks IH]; simpl; [reflexivity|].
  rewrite count_key_zero by (apply D; now left). simpl.
  apply IH. intros x I. apply D. now right.
Qed.

(** C4. When no date key of the trader table occurs in the sentiment table,
    the analyzer prints its heading, the row count 0 and the error line,
    and returns: no exception, the frame is the (empty) join itself with no
    column added, no chart is written and the images directory is not
    created. *)
Theorem C4_empty_join_aborts (trader_df sentiment_df : DataFrame)
  (w : world) :
  (forall k, In k (date_key trader_df) -> ~ In k (date_key sentiment_df)) ->
  nrows (merge_inner trader_df sentiment_df) = 0%nat /\
  analyze_and_visualize trader_df sentiment_df w =
    (Ok (merge_inner trader_df sentiment_df),
     mkWorld (files w) (images_dir w)
             (console w ++ [nl ++ "--- 2. MERGING & MAPPING ---";
                            "Merged Rows: 0";
                            "ERROR: Merged DataFrame is still empty."])
             (charts w)) /\
  names (columns (merge_inner trader_df sentiment_df)) =
    (map (suffixed "_x" (names (columns sentiment_df)))
         (names (columns trader_df))
     ++ map (suffixed "_y" (names (columns trader_df)))
            (names (columns sentiment_df)))%list.
Proof.
  intro D. pose proof (merge_disjoint_empty _ _ D) as E.
  split; [unfold nrows; now rewrite E|]. split.
  - unfold analyze_and_visualize, bind, print, ret, df_empty, nrows.
    rewrite E. cbn [files images_dir console charts List.length].
    rewrite <- !app_assoc. reflexivity.
  - unfold merge_inner, names. cbn [columns].
    rewrite map_app, !map_map. reflexivity.
Qed.

Lemma C4_empty_join_aborts_witness :
  nrows (merge_inner three_trades scores_days_12) = 0%nat /\
  analyze_and_visualize three_trades scores_days_12 empty_world =
    (Ok (merge_inner three_trades scores_days_12),
     mkWorld (files empty_world) (images_dir empty_world)
             (console empty_world
                ++ [nl ++ "--- 2. MERGING & MAPPING ---";
                    "Merged Rows: 0";
                    "ERROR: Merged DataFrame is still empty."])
             (charts empty_world)) /\
  names (columns (merge_inner three_trades scores_days_12)) =
    (map (suffixed "_x" (names (columns scores_days_12)))
         (names (columns three_trades))
     ++ map (suffixed "_y" (names (columns three_trades)))
            (names (columns scores_days_12)))%list.
Proof.
  apply (C4_empty_join_aborts three_trades scores_days_12 empty_world).
  simpl. intros k [E | [E | [E | []]]] [F | [F | []]];
    subst k; discriminate.
Defined.

Lemma list_sum_indicator (p : option Z -> bool) (l : list (option Z)) :
  list_sum (map (fun k => if p k then 1%nat else 0%nat) l)
  = List.length (filter p l).
Proof.
  induction l as [|k l IH]; simpl; [reflexivity|].
  destruct (p k); simpl; now rewrite IH.
Qed.

Lemma matching_pairs_nodup (lk rk : list (option Z)) :
  NoDup rk -> matching_pairs lk rk = rows_in_intersection lk rk.
Proof.
  intro N. unfold matching_pairs, rows_in_intersection.
  rewrite (map_ext _ (fun k => if key_in k rk then 1%nat else 0%nat))
    by (intro k; now apply count_key_nodup).
  rewrite list_sum_indicator. f_equal. apply filter_ext_in.
  intros k I. apply key_in_In in I. now rewrite I.
Qed.

(** C7, as amended.  The merged table has one row per pair of a trader row
    and a sentiment row with equal date keys.  When the sentiment table has
    at most one row per date key, that is the number of trader rows whose
    date key lies in the intersection of the two key sets.  Every merged
    row's date key occurs in both tables. *)
Theorem C7_join_row_count (trader_df sentiment_df : DataFrame) :
  nrows (merge_inner trader_df sentiment_df)
  = matching_pairs (date_key trader_df) (date_key sentiment_df) /\
  (NoDup (date_key sentiment_df) ->
   nrows (merge_inner trader_df sentiment_df)
   = rows_in_intersection (date_key trader_df) (date_key sentiment_df)) /\
  (forall k, In k (date_key (merge_inner trader_df sentiment_df)) ->
             In k (date_key trader_df) /\ In k (date_key sentiment_df)).
Proof.
  split; [apply merge_nrows|]. split.
  - intro N. rewrite merge_nrows. now apply matching_pairs_nodup.
  - apply merge_keys_in_both.
Qed.

Lemma C7_join_row_count_witness :
  nrows (merge_inner trades_days_001 scores_days_12)
  = rows_in_intersection (date_key trades_days_001)
                         (date_key scores_days_12).
Proof.
  apply (C7_join_row_count trades_days_001 scores_days_12).
  simpl. repeat constructor; simpl; intuition discriminate.
Defined.

(** C7 as stated fails when a date occurs twice in the sentiment table:
    three trades and two sentiment rows of one day, with a [pnl] and a
    [value] column and the same date range, merge into six rows, while
    three trader rows and two sentiment rows have their key in the
    intersection. *)
Lemma C7_duplicate_dates_counterexample :
  let m := merge_inner three_trades two_scores_same_day in
  let tk := date_key three_trades in
  let sk := date_key two_scores_same_day in
  first_column is_pnl_name (columns m) = Some "closed pnl" /\
  first_column is_value_name (columns m) = Some "value" /\
  date_lt (date_max tk) (date_min sk) || date_lt (date_max sk) (date_min tk)
    = false /\
  nrows m = 6%nat /\
  rows_in_intersection tk sk = 3%nat /\
  rows_in_intersection sk tk = 2%nat /\
  nrows m <> rows_in_intersection tk sk /\
  nrows m <> rows_in_intersection sk tk /\
  nrows m <> (rows_in_intersection tk sk + rows_in_intersection sk tk)%nat.
Proof. vm_compute. repeat split; try reflexivity; discriminate. Qed.

(** ** The loader *)

Section LoaderFacts.

Variable to_datetime_ms : series -> list (option Z).
Variable to_datetime_mixed : series -> list (option Z).
Variable show_date : option Z -> string.

Lemma load_input_trader (w : world) :
  load_input TRADER_DATA_PATH "historical_data.csv" w
  = (Ok (trader_input w), w).
Proof.
  unfold load_input, trader_input, bind, read_file, ret.
  destruct (files w TRADER_DATA_PATH); reflexivity.
Qed.

Lemma load_input_sentiment (w : world) :
  load_input SENTIMENT_DATA_PATH "fear_greed_index.csv" w
  = (Ok (sentiment_input w), w).
Proof.
  unfold load_input, sentiment_input, bind, read_file, ret.
  destruct (files w SENTIMENT_DATA_PATH); reflexivity.
Qed.

Lemma trader_datetime_cases (t : table) (w : world) :
  (trader_time_found t = false /\
   trader_datetime to_datetime_ms to_datetime_mixed t w =
     (Ok None,
      log ["ERROR: Could not find a recognizable time column in Trader Data."]
          w))
  \/
  (trader_time_found t = true /\
   exists d msg,
     trader_datetime to_datetime_ms to_datetime_mixed t w =
       (Ok (Some d), log [msg] w)).
Proof.
  unfold trader_time_found, trader_datetime.
  destruct (name_in "timestamp" (names t)
            && match get_column "timestamp" t with
               | Some col => is_numeric_dtype col
               | None => false
               end) eqn:C1.
  - right. split; [reflexivity|].
    apply andb_true_iff in C1. destruct C1 as [_ C1].
    destruct (get_column "timestamp" t) as [col|] eqn:G; [|discriminate].
    exists (to_datetime_ms col), "-> Using numeric 'timestamp' column for Trader Data...".
    unfold bind, getitem. rewrite print_log, G. reflexivity.
  - destruct (name_in "timestamp ist" (names t)) eqn:C2.
    + right. split; [reflexivity|].
      apply name_in_In in C2. apply get_column_In in C2.
      destruct C2 as [col G].
      exists (to_datetime_mixed col), "-> Using string 'timestamp ist' column for Trader Data...".
      unfold bind, getitem. rewrite print_log, G. reflexivity.
    + left. split; reflexivity.
Qed.

Lemma sentiment_datetime_cases (t : table) (w : world) :
  (sentiment_date_found t = false /\
   sentiment_datetime to_datetime_mixed t w =
     (Ok None,
      log ["ERROR: Could not find a recognizable date column in Sentiment Data."]
          w))
  \/
  (sentiment_date_found t = true /\
   exists d msg,
     sentiment_datetime to_datetime_mixed t w =
       (Ok (Some d), log [msg] w)).
Proof.
  unfold sentiment_date_found, sentiment_datetime.
  destruct (name_in "date" (names t)) eqn:C1.
  - right. split; [reflexivity|].
    apply name_in_In in C1. apply get_column_In in C1.
    destruct C1 as [col G].
    exists (to_datetime_mixed col), "-> Using 'date' column for Sentiment Data...".
    unfold bind, getitem. rewrite print_log, G. reflexivity.
  - destruct (name_in "timestamp" (names t)) eqn:C2.
    + right. split; [reflexivity|].
      apply name_in_In in C2. apply get_column_In in C2.
      destruct C2 as [col G].
      exists (to_datetime_mixed col), "-> Using 'timestamp' column for Sentiment Data...".
      unfold bind, getitem. rewrite print_log, G. reflexivity.
    + left. split; reflexivity.
Qed.

Lemma finish_load_ok (t s : table) (dt dr : list (option Z)) (w : world) :
  exists lines,
    finish_load show_date t s dt dr w =
      (Ok (Some (with_date_key ["datetime"; "date_key"]
                               (map normalize_day dt) t),
           Some (with_date_key ["date_key_raw"; "date_key"]
                               (map normalize_day dr) s)),
       log lines w).
Proof.
  unfold finish_load, bind. rewrite !print_log.
  match goal with |- context [if ?c then _ else _] => destruct c end.
  - rewrite print_log, !log_log. eexists. reflexivity.
  - unfold ret. rewrite !log_log. eexists. reflexivity.
Qed.

(** The five ways through the loader. *)
Lemma load_cases (w : world) :
  let hdr := "--- 1. LOADING & DIAGNOSING DATA ---" in
  let run := load_and_clean_data to_datetime_ms to_datetime_mixed
                                 show_date w in
  match trader_input w with
  | None =>
      run = (Ok (None, None),
             log [hdr; "CRITICAL ERROR: Could not find trader data."] w)
  | Some t =>
      match sentiment_input w with
      | None =>
          run = (Ok (None, None),
                 log [hdr; "CRITICAL ERROR: Could not find sentiment data."]
                     w)
      | Some s =>
          if negb (trader_time_found (normalize_columns t)) then
            run = (Ok (None, None),
                   log [hdr; "ERROR: Could not find a recognizable time column in Trader Data."]
                       w)
          else if negb (sentiment_date_found (normalize_columns s)) then
            exists msg,
              run = (Ok (None, None),
                     log [hdr; msg; "ERROR: Could not find a recognizable date column in Sentiment Data."]
                         w)
          else
            exists td sd lines,
              run = (Ok (Some td, Some sd), log (hdr :: lines) w)
      end
  end.
Proof.
  intros hdr run. subst run hdr.
  remember (log ["--- 1. LOADING & DIAGNOSING DATA ---"] w) as w1 eqn:W1.
  assert (T1 : trader_input w1 = trader_input w) by (subst w1; reflexivity).
  assert (S1 : sentiment_input w1 = sentiment_input w)
    by (subst w1; reflexivity).
  unfold load_and_clean_data, bind.
  rewrite print_log, <- W1, load_input_trader, T1.
  destruct (trader_input w) as [t|].
  2: { rewrite print_log. subst w1. rewrite log_log. reflexivity. }
  rewrite load_input_sentiment, S1.
  destruct (sentiment_input w) as [s|].
  2: { rewrite print_log. subst w1. rewrite log_log. reflexivity. }
  cbv zeta.
  destruct (trader_datetime_cases (normalize_columns t) w1)
    as [[F R] | [F (dt & msg & R)]]; rewrite F, R; cbn [negb].
  { subst w1. rewrite log_log. reflexivity. }
  destruct (sentiment_datetime_cases (normalize_columns s) (log [msg] w1))
    as [[G Q] | [G (dr & msg' & Q)]]; rewrite G, Q; cbn [negb].
  { exists msg. subst w1. rewrite !log_log. reflexivity. }
  destruct (finish_load_ok (normalize_columns t) (normalize_columns s)
              dt dr (log [msg'] (log [msg] w1))) as [lines E].
  rewrite E. subst w1. rewrite !log_log. do 3 eexists. reflexivity.
Qed.

(** C5. When neither path of one of the two inputs exists, or one of the
    two tables has no recognizable date/time column, the loader raises
    nothing, returns [(None, None)] after printing one of its four error
    lines as its last line, writes no chart, and [main] ends in the state
    the loader left: the analysis is not run. *)
Theorem C5_loader_failure (w : world) :
  load_fails w ->
  exists pre msg,
    In msg error_messages /\
    load_and_clean_data to_datetime_ms to_datetime_mixed show_date w
      = (Ok (None, None), log (pre ++ [msg]) w) /\
    main to_datetime_ms to_datetime_mixed show_date w
      = (Ok tt, log (pre ++ [msg]) w) /\
    charts (log (pre ++ [msg]) w) = charts w.
Proof.
  intro H. pose proof (load_cases w) as C. cbv zeta in C.
  assert (K : forall pre msg,
             In msg error_messages ->
             load_and_clean_data to_datetime_ms to_datetime_mixed
                                 show_date w
               = (Ok (None, None), log (pre ++ [msg]) w) ->
             exists pre msg,
               In msg error_messages /\
               load_and_clean_data to_datetime_ms to_datetime_mixed
                                   show_date w
                 = (Ok (None, None), log (pre ++ [msg]) w) /\
               main to_datetime_ms to_datetime_mixed show_date w
                 = (Ok tt, log (pre ++ [msg]) w) /\
               charts (log (pre ++ [msg]) w) = charts w).
  { intros pre msg I E. exists pre, msg. split; [exact I|].
    split; [exact E|]. split; [|reflexivity].
    unfold main, bind. rewrite E. reflexivity. }
  destruct (trader_input w) as [t|] eqn:T.
  2: { apply (K ["--- 1. LOADING & DIAGNOSING DATA ---"]
                "CRITICAL ERROR: Could not find trader data.");
         [simpl; tauto | exact C]. }
  destruct (sentiment_input w) as [s|] eqn:S.
  2: { apply (K ["--- 1. LOADING & DIAGNOSING DATA ---"]
                "CRITICAL ERROR: Could not find sentiment data.");
         [simpl; tauto | exact C]. }
  destruct (trader_time_found (normalize_columns t)) eqn:F; cbn [negb] in C.
  2: { apply (K ["--- 1. LOADING & DIAGNOSING DATA ---"]
                "ERROR: Could not find a recognizable time column in Trader Data.");
         [simpl; tauto | exact C]. }
  destruct (sentiment_date_found (normalize_columns s)) eqn:G;
    cbn [negb] in C.
  2: { destruct C as [m C].
       apply (K ["--- 1. LOADING & DIAGNOSING DATA ---"; m]
                "ERROR: Could not find a recognizable date column in Sentiment Data.");
         [simpl; tauto | exact C]. }
  exfalso. destruct H as [H | [H | [(t' & H & H') | (s' & H & H')]]];
    congruence.
Qed.

End LoaderFacts.

Lemma C5_loader_failure_witness :
  exists pre msg,
    In msg error_messages /\
    load_and_clean_data (fun _ => []) (fun _ => []) (fun _ => "NaT")
                        trader_only_world
      = (Ok (None, None), log (pre ++ [msg]) trader_only_world) /\
    main (fun _ => []) (fun _ => []) (fun _ => "NaT") trader_only_world
      = (Ok tt, log (pre ++ [msg]) trader_only_world) /\
    charts (log (pre ++ [msg]) trader_only_world) = charts trader_only_world.
Proof.
  apply (C5_loader_failure (fun _ => []) (fun _ => []) (fun _ => "NaT")
           trader_only_world).
  right. left. reflexivity.
Defined.

(** ** The win indicator and the win rate *)

Lemma is_win_iff (v : pyfloat) :
  is_win v = true <-> (v = PosInf \/ exists q, v = Fin q /\ 0 < q).
Proof.
  unfold is_win, float_gt. destruct v as [q| | |]; simpl.
  - rewrite Qltb_lt. split.
    + intro H. right. now exists q.
    + intros [H | [q' [E H]]]; [discriminate|]. now injection E as ->.
  - split; [now left | reflexivity].
  - split; [discriminate|]. intros [H | [q [E _]]]; discriminate.
  - split; [discriminate|]. intros [H | [q [E _]]]; discriminate.
Qed.

(** What Plot 3 does when both of its columns are there and the
    profit/loss column is numeric. *)
Lemma plot_win_rate_run (merged_df : DataFrame) (w : world)
  (pnl keys : series) (vs : list pyfloat) :
  get_column "pnl_clean" (columns merged_df) = Some pnl ->
  numeric_values pnl = Some vs ->
  get_column "sentiment_bucket" (columns merged_df) = Some keys ->
  plot_win_rate merged_df w =
    (Ok (assign "is_win" (SBool (map is_win vs)) merged_df),
     log ["-> Saved professional images/win_rate_by_sentiment.png"]
         (with_chart
            (BarChart "images/win_rate_by_sentiment.png"
               (grouped_means (series_labels keys)
                              (map bool_to_float (map is_win vs))))
            w)).
Proof.
  intros P V K. unfold plot_win_rate.
  rewrite (get_column_has _ _ _ P), (get_column_has _ _ _ K).
  cbn [andb]. unfold bind, getitem, series_gt0, ret. rewrite P.
  cbv beta iota. rewrite V. cbn [option_map assign columns].
  rewrite get_set_other by discriminate. rewrite K, get_set_same.
  reflexivity.
Qed.

(** C6. When Plot 3 runs, the [is_win] column it derives holds, for every
    row, the test [pnl_clean > 0]: true exactly when the cleaned
    profit/loss is a strictly positive number (or [+inf]), hence false for
    a profit/loss of zero. *)
Theorem C6_win_indicator (merged_df : DataFrame) (w : world)
  (pnl keys : series) (vs : list pyfloat) :
  get_column "pnl_clean" (columns merged_df) = Some pnl ->
  numeric_values pnl = Some vs ->
  get_column "sentiment_bucket" (columns merged_df) = Some keys ->
  exists df' w',
    plot_win_rate merged_df w = (Ok df', w') /\
    get_column "is_win" (columns df') = Some (SBool (map is_win vs)) /\
    (forall i v, nth_error vs i = Some v ->
       nth_error (map is_win vs) i = Some (is_win v) /\
       (is_win v = true <-> (v = PosInf \/ exists q, v = Fin q /\ 0 < q))) /\
    is_win (Fin 0) = false.
Proof.
  intros P V K. do 2 eexists.
  split; [exact (plot_win_rate_run merged_df w pnl keys vs P V K)|].
  split; [cbn [assign columns]; apply get_set_same|].
  split; [|reflexivity].
  intros i v N. split; [now apply map_nth_error | apply is_win_iff].
Qed.

Lemma C6_win_indicator_witness :
  exists df' w',
    plot_win_rate mixed_pnl empty_world = (Ok df', w') /\
    get_column "is_win" (columns df')
      = Some (SBool (map is_win [Fin 5; Fin 0; Fin (-2); NaN])) /\
    (forall i v, nth_error [Fin 5; Fin 0; Fin (-2); NaN] i = Some v ->
       nth_error (map is_win [Fin 5; Fin 0; Fin (-2); NaN]) i
         = Some (is_win v) /\
       (is_win v = true <-> (v = PosInf \/ exists q, v = Fin q /\ 0 < q))) /\
    is_win (Fin 0) = false.
Proof.
  apply (C6_win_indicator mixed_pnl empty_world
           (SFloat64 [Fin 5; Fin 0; Fin (-2); NaN])
           (SObject [OStr "Fear"; OStr "Fear"; OStr "Fear"; OStr "Fear"])
           [Fin 5; Fin 0; Fin (-2); NaN]);
    reflexivity.
Defined.

Lemma group_rows_map {A B : Type} (f : A -> B) (x : string)
  (labels : list (option string)) (vs : list A) :
  group_rows x labels (map f vs) = map f (group_rows x labels vs).
Proof.
  unfold group_rows. revert vs.
  induction labels as [|l labels IH]; intros [|v vs]; simpl;
    try reflexivity.
  destruct (label_is x l); simpl; now rewrite IH.
Qed.

Lemma group_rows_length {A : Type} (x : string)
  (labels : list (option string)) (vs : list A) :
  List.length labels = List.length vs ->
  List.length (group_rows x labels vs) = rows_of x labels.
Proof.
  unfold group_rows, rows_of. revert vs.
  induction labels as [|l labels IH]; intros [|v vs] L; simpl in *;
    try reflexivity; try discriminate.
  injection L as L. destruct (label_is x l); simpl; now rewrite IH.
Qed.

Lemma group_rows_In {A : Type} (x : string) (labels : list (option string))
  (vs : list A) (i : nat) (v : A) :
  nth_error labels i = Some (Some x) ->
  nth_error vs i = Some v ->
  In v (group_rows x labels vs).
Proof.
  unfold group_rows. revert vs i.
  induction labels as [|l labels IH]; intros [|u vs] [|i] L V;
    simpl in *; try discriminate.
  - injection L as ->. injection V as ->. simpl.
    rewrite String.eqb_refl. now left.
  - destruct (label_is x l); simpl; [right|]; now apply (IH vs i).
Qed.

Lemma filter_length_lt {A : Type} (p : A -> bool) (l : list A) (a : A) :
  In a l -> p a = false ->
  (List.length (filter p l) < List.length l)%nat.
Proof.
  intros I F. induction l as [|x l IH]; simpl in *; [tauto|].
  pose proof (filter_length_le p l) as LE.
  destruct I as [E | I].
  - subst x. rewrite F. lia.
  - specialize (IH I). destruct (p x); simpl; lia.
Qed.

Lemma filter_length_mono {A : Type} (p q : A -> bool) (l : list A) :
  (forall a, p a = true -> q a = true) ->
  (List.length (filter p l) <= List.length (filter q l))%nat.
Proof.
  intro H. induction l as [|x l IH]; simpl; [lia|].
  destruct (p x) eqn:P.
  - rewrite (H x P). simpl. lia.
  - destruct (q x); simpl; lia.
Qed.

Lemma is_win_not_nan (v : pyfloat) :
  is_win v = true -> negb (float_isnan v) = true.
Proof. destruct v; simpl; intro H; try reflexivity; discriminate. Qed.

Lemma bools_not_nan (bs : list bool) :
  filter (fun f => negb (float_isnan f)) (map bool_to_float bs)
  = map bool_to_float bs.
Proof.
  induction bs as [|b bs IH]; simpl; [reflexivity|]. now rewrite IH.
Qed.

Lemma float_sum_bools (bs : list bool) (a : Q) :
  exists q,
    fold_left float_add (map bool_to_float bs) (Fin a) = Fin q /\
    q == a + inject_Z (Z.of_nat (count_true bs)).
Proof.
  revert a. induction bs as [|b bs IH]; intro a.
  - exists a. split; [reflexivity|]. unfold count_true.
    cbn [filter List.length Z.of_nat]. change (inject_Z 0) with 0.
    now rewrite Qplus_0_r.
  - destruct (IH (a + (if b then 1 else 0))) as [q [E Q]].
    exists q. split; [exact E|]. rewrite Q. unfold count_true.
    destruct b; cbn [filter List.length].
    + rewrite Nat2Z.inj_succ. unfold Z.succ. rewrite inject_Z_plus.
      change (inject_Z 1) with 1. lra.
    + lra.
Qed.

Lemma Qdiv_nat (a : Z) (n : nat) :
  (0 < n)%nat ->
  inject_Z a / inject_Z (Z.of_nat n) == a # Pos.of_nat n.
Proof.
  intro H. destruct n as [|n]; [lia|].
  rewrite <- Pos.of_nat_succ.
  unfold Qdiv, Qinv, inject_Z, Qeq, Qmult. cbn [Z.of_nat Qnum Qden]. lia.
Qed.

(** The mean of a non-empty Boolean column is the share of [True]. *)
Lemma mean_bools (bs : list bool) :
  bs <> [] ->
  exists q,
    mean_skipna (map bool_to_float bs) = Fin q /\
    q == Z.of_nat (count_true bs) # Pos.of_nat (List.length bs).
Proof.
  intro N. unfold mean_skipna. rewrite bools_not_nan.
  destruct bs as [|b bs]; [congruence|].
  change (map bool_to_float (b :: bs))
    with (bool_to_float b :: map bool_to_float bs).
  cbv iota. unfold float_sum.
  destruct (float_sum_bools (b :: bs) 0) as [q [E Q]].
  change (map bool_to_float (b :: bs))
    with (bool_to_float b :: map bool_to_float bs) in E.
  rewrite E. cbn [float_div_nat]. eexists. split; [reflexivity|].
  rewrite length_map. rewrite Q, Qplus_0_l.
  apply (Qdiv_nat _ (S (List.length bs))). lia.
Qed.

Lemma count_true_map {A : Type} (p : A -> bool) (l : list A) :
  count_true (map p l) = List.length (filter p l).
Proof.
  unfold count_true. induction l as [|x l IH]; simpl; [reflexivity|].
  destruct (p x); simpl; now rewrite IH.
Qed.

Lemma Zpos_of_nat (n : nat) :
  (0 < n)%nat -> Zpos (Pos.of_nat n) = Z.of_nat n.
Proof.
  intro H. rewrite <- positive_nat_Z, Nat2Pos.id by lia. reflexivity.
Qed.

(** C10. A merged row whose cleaned profit/loss is missing ([nan]) gets
    the win indicator [False]; the win rate Plot 3 computes for the row's
    bucket is the number of winning rows over the number of all rows of the
    bucket, the row with the missing value included; so it is at most, and
    with at least one win strictly below, the rate over the rows whose
    profit/loss is not missing. *)
Theorem C10_missing_pnl_lowers_win_rate (merged_df : DataFrame) (w : world)
  (pnl keys : series) (vs : list pyfloat) (i : nat) (x : string) :
  get_column "pnl_clean" (columns merged_df) = Some pnl ->
  numeric_values pnl = Some vs ->
  get_column "sentiment_bucket" (columns merged_df) = Some keys ->
  List.length (series_labels keys) = List.length vs ->
  nth_error vs i = Some NaN ->
  nth_error (series_labels keys) i = Some (Some x) ->
  exists df' bars q,
    plot_win_rate merged_df w =
      (Ok df',
       log ["-> Saved professional images/win_rate_by_sentiment.png"]
           (with_chart (BarChart "images/win_rate_by_sentiment.png" bars)
                       w)) /\
    get_column "is_win" (columns df') = Some (SBool (map is_win vs)) /\
    nth_error (map is_win vs) i = Some false /\
    group_mean x (series_labels keys) (map bool_to_float (map is_win vs))
      = Fin q /\
    (In x order -> In (x, Fin q) bars) /\
    q == Z.of_nat (wins_of x (series_labels keys) vs)
         # Pos.of_nat (rows_of x (series_labels keys)) /\
    (valued_of x (series_labels keys) vs
     < rows_of x (series_labels keys))%nat /\
    (wins_of x (series_labels keys) vs
     <= valued_of x (series_labels keys) vs)%nat /\
    ((0 < valued_of x (series_labels keys) vs)%nat ->
     q <= Z.of_nat (wins_of x (series_labels keys) vs)
          # Pos.of_nat (valued_of x (series_labels keys) vs)) /\
    ((0 < wins_of x (series_labels keys) vs)%nat ->
     q < Z.of_nat (wins_of x (series_labels keys) vs)
         # Pos.of_nat (valued_of x (series_labels keys) vs)).
Proof.
  intros P V K L N X.
  set (labels := series_labels keys) in *.
  pose proof (group_rows_In x labels vs i NaN X N) as I.
  pose proof (group_rows_length x labels vs L) as GL.
  assert (NE : map is_win (group_rows x labels vs) <> []).
  { destruct (group_rows x labels vs); [destruct I | discriminate]. }
  destruct (mean_bools _ NE) as [q [M Q]].
  rewrite count_true_map, length_map, GL in Q.
  assert (GM : group_mean x labels (map bool_to_float (map is_win vs))
               = Fin q).
  { unfold group_mean. now rewrite !group_rows_map. }
  assert (VR : (valued_of x labels vs < rows_of x labels)%nat).
  { unfold valued_of. rewrite <- GL.
    now apply (filter_length_lt _ _ NaN). }
  assert (WV : (wins_of x labels vs <= valued_of x labels vs)%nat).
  { unfold wins_of, valued_of. apply filter_length_mono.
    exact is_win_not_nan. }
  exists (assign "is_win" (SBool (map is_win vs)) merged_df),
         (grouped_means labels (map bool_to_float (map is_win vs))), q.
  split; [exact (plot_win_rate_run merged_df w pnl keys vs P V K)|].
  split; [cbn [assign columns]; apply get_set_same|].
  split; [exact (map_nth_error is_win i vs N)|].
  split; [exact GM|].
  split.
  { intro O. unfold grouped_means. apply in_map_iff. exists x.
    split; [now rewrite GM|]. apply filter_In. split; [exact O|].
    apply existsb_exists. exists (Some x).
    split; [exact (nth_error_In _ _ X)|]. simpl. apply String.eqb_refl. }
  split; [exact Q|]. split; [exact VR|]. split; [exact WV|].
  fold (wins_of x labels vs) in Q.
  split; intro H; rewrite Q.
  - unfold Qle. cbn [Qnum Qden]. rewrite !Zpos_of_nat by lia. nia.
  - unfold Qlt. cbn [Qnum Qden]. rewrite !Zpos_of_nat by lia. nia.
Qed.

Lemma C10_missing_pnl_lowers_win_rate_witness :
  exists df' bars q,
    plot_win_rate mixed_pnl empty_world =
      (Ok df',
       log ["-> Saved professional images/win_rate_by_sentiment.png"]
           (with_chart (BarChart "images/win_rate_by_sentiment.png" bars)
                       empty_world)) /\
    get_column "is_win" (columns df')
      = Some (SBool (map is_win [Fin 5; Fin 0; Fin (-2); NaN])) /\
    nth_error (map is_win [Fin 5; Fin 0; Fin (-2); NaN]) 3 = Some false /\
    group_mean "Fear" [Some "Fear"; Some "Fear"; Some "Fear"; Some "Fear"]
      (map bool_to_float (map is_win [Fin 5; Fin 0; Fin (-2); NaN]))
      = Fin q /\
    (In "Fear" order -> In ("Fear", Fin q) bars) /\
    q == 1 # 4 /\
    (3 < 4)%nat /\
    (1 <= 3)%nat /\
    ((0 < 3)%nat -> q <= 1 # 3) /\
    ((0 < 1)%nat -> q < 1 # 3).
Proof.
  apply (C10_missing_pnl_lowers_win_rate mixed_pnl empty_world
           (SFloat64 [Fin 5; Fin 0; Fin (-2); NaN])
           (SObject [OStr "Fear"; OStr "Fear"; OStr "Fear"; OStr "Fear"])
           [Fin 5; Fin 0; Fin (-2); NaN] 3 "Fear");
    reflexivity.
Defined.

(** ** Skipped analyses *)

(** What Plot 1 does when both of its columns are there and the
    profit/loss column is numeric. *)
Lemma plot_pnl_run (merged_df : DataFrame) (w : world)
  (pnl keys : series) (vs : list pyfloat) :
  get_column "pnl_clean" (columns merged_df) = Some pnl ->
  numeric_values pnl = Some vs ->
  get_column "sentiment_bucket" (columns merged_df) = Some keys ->
  plot_pnl merged_df w =
    (Ok tt,
     log ["-> Saved professional images/pnl_by_sentiment.png"]
         (with_chart
            (BarChart "images/pnl_by_sentiment.png"
               (grouped_means (series_labels keys) vs))
            w)).
Proof.
  intros P V K. unfold plot_pnl.
  rewrite (get_column_has _ _ _ P), (get_column_has _ _ _ K).
  cbn [andb]. unfold bind, getitem, groupby_mean, ret. rewrite K, P.
  cbv beta iota. rewrite V. reflexivity.
Qed.

(** Plot 2 reads [sentiment_value] without a test: with leverage values
    and no sentiment score column it raises [KeyError]. *)
Lemma plot_leverage_keyerror :
  plot_leverage leverage_only empty_world
  = (Raise (KeyError "sentiment_value"), empty_world).
Proof. reflexivity. Qed.

(** C8, as amended.  The leverage scatter is skipped, with the line
    "-> Leverage column missing. Skipping leverage plot.", whenever
    [lev_clean] is absent or has no value that is not missing.  The mean
    profit/loss and the win-rate analyses are skipped whenever [pnl_clean]
    or [sentiment_bucket] is absent, and that skip prints nothing and
    changes nothing; when both columns are there the two bar charts are
    written, whatever the values of [pnl_clean] (all of them may be
    missing). *)
Theorem C8_skipped_analyses (merged_df : DataFrame) (w : world) :
  ((get_column "lev_clean" (columns merged_df) = None \/
    exists lev, get_column "lev_clean" (columns merged_df) = Some lev /\
                notna_any lev = false) ->
   plot_leverage merged_df w =
     (Ok tt,
      log ["-> Leverage column missing. Skipping leverage plot."] w)) /\
  (has_column "pnl_clean" merged_df
   && has_column "sentiment_bucket" merged_df = false ->
   plot_pnl merged_df w = (Ok tt, w) /\
   plot_win_rate merged_df w = (Ok merged_df, w)) /\
  (forall pnl keys vs,
     get_column "pnl_clean" (columns merged_df) = Some pnl ->
     numeric_values pnl = Some vs ->
     get_column "sentiment_bucket" (columns merged_df) = Some keys ->
     plot_pnl merged_df w =
       (Ok tt,
        log ["-> Saved professional images/pnl_by_sentiment.png"]
            (with_chart
               (BarChart "images/pnl_by_sentiment.png"
                  (grouped_means (series_labels keys) vs))
               w)) /\
     plot_win_rate merged_df w =
       (Ok (assign "is_win" (SBool (map is_win vs)) merged_df),
        log ["-> Saved professional images/win_rate_by_sentiment.png"]
            (with_chart
               (BarChart "images/win_rate_by_sentiment.png"
                  (grouped_means (series_labels keys)
                                 (map bool_to_float (map is_win vs))))
               w))).
Proof.
  split; [|split].
  - intros [G | [lev [G N]]]; unfold plot_leverage; rewrite G;
      [|rewrite N]; apply print_log.
  - intro H. unfold plot_pnl, plot_win_rate. rewrite H. split; reflexivity.
  - intros pnl keys vs P V K. split.
    + exact (plot_pnl_run merged_df w pnl keys vs P V K).
    + exact (plot_win_rate_run merged_df w pnl keys vs P V K).
Qed.

Lemma C8_skipped_analyses_witness :
  plot_leverage bare_frame empty_world =
    (Ok tt,
     log ["-> Leverage column missing. Skipping leverage plot."]
         empty_world) /\
  plot_pnl bare_frame empty_world = (Ok tt, empty_world) /\
  plot_win_rate bare_frame empty_world = (Ok bare_frame, empty_world).
Proof.
  destruct (C8_skipped_analyses bare_frame empty_world) as (A & B & _).
  split; [apply A; left; reflexivity | apply B; reflexivity].
Defined.

(** C8 as stated fails for the two bar charts.  With a profit/loss column
    and no sentiment score column, [sentiment_bucket] is absent: both bar
    charts are skipped and the only line printed between the plot heading
    and the closing line is the one of the leverage plot.  With a
    profit/loss column that is entirely missing after cleaning, both bar
    charts are written. *)
Lemma C8_silent_skip_counterexample :
  let w1 := snd (analyze_and_visualize (one_trade (SInt64 [10%Z]))
                   scores_unnamed empty_world) in
  let w2 := snd (analyze_and_visualize (one_trade (SObject [OStr "n/a"]))
                   (one_score (SInt64 [20%Z])) empty_world) in
  charts w1 = [] /\
  console w1 =
    [nl ++ "--- 2. MERGING & MAPPING ---";
     "Merged Rows: 1";
     nl ++ "--- 3. GENERATING PROFESSIONAL PLOTS ---";
     "-> Leverage column missing. Skipping leverage plot.";
     nl ++ "SUCCESS: Analysis Finished."] /\
  charts w2 =
    [BarChart "images/pnl_by_sentiment.png" [("Extreme Fear", NaN)];
     BarChart "images/win_rate_by_sentiment.png" [("Extreme Fear", Fin 0)]].
Proof. vm_compute. repeat split; reflexivity. Qed.

(** ** Determinism of the aggregates *)

Section Determinism.

Variable R : world -> world -> Prop.

(** [R] looks at the input files only. *)
Hypothesis R_out :
  forall w1 w2 d1 d2 c1 c2 h1 h2,
    R w1 w2 ->
    R (mkWorld (files w1) d1 c1 h1) (mkWorld (files w2) d2 c2 h2).
Hypothesis R_files : forall w1 w2, R w1 w2 -> same_inputs w1 w2.

Lemma agree_ret {A : Type} (a : A) : agree R (ret a).
Proof.
  intros w1 w2 H. cbn. repeat split; [exact H|].
  exists []. now rewrite !app_nil_r.
Qed.

Lemma agree_raise {A : Type} (e : exn) : agree R (@raise A e).
Proof.
  intros w1 w2 H. cbn. repeat split; [exact H|].
  exists []. now rewrite !app_nil_r.
Qed.

Lemma agree_bind {A B : Type} (m : M A) (f : A -> M B) :
  agree R m -> (forall a, agree R (f a)) -> agree R (bind m f).
Proof.
  intros Hm Hf w1 w2 H. unfold bind.
  destruct (Hm w1 w2 H) as (E & H' & cs & C1 & C2).
  destruct (m w1) as [r1 v1], (m w2) as [r2 v2]. cbn in *. subst r2.
  destruct r1 as [a|e].
  - destruct (Hf a v1 v2 H') as (E2 & H2 & cs2 & D1 & D2).
    split; [exact E2|]. split; [exact H2|]. exists (cs ++ cs2)%list.
    rewrite D1, D2, C1, C2, !app_assoc. split; reflexivity.
  - cbn. split; [reflexivity|]. split; [exact H'|]. now exists cs.
Qed.

Lemma agree_print (msg : string) : agree R (print msg).
Proof.
  intros w1 w2 H. cbn. split; [reflexivity|].
  split; [now apply R_out|]. exists []. now rewrite !app_nil_r.
Qed.

Lemma agree_savefig (c : chart) : agree R (savefig c).
Proof.
  intros w1 w2 H. cbn. split; [reflexivity|].
  split; [now apply R_out|]. now exists [c].
Qed.

Lemma agree_ensure_images_dir : agree R ensure_images_dir.
Proof.
  intros w1 w2 H. unfold ensure_images_dir.
  pose proof (R_out w1 w2 true true (console w1) (console w2)
                (charts w1) (charts w2) H) as H11.
  pose proof (R_out w1 w2 (images_dir w1) true (console w1) (console w2)
                (charts w1) (charts w2) H) as H01.
  pose proof (R_out w1 w2 true (images_dir w2) (console w1) (console w2)
                (charts w1) (charts w2) H) as H10.
  destruct w1 as [f1 d1 c1 h1], w2 as [f2 d2 c2 h2]. cbn in *.
  destruct d1, d2; cbn; (split; [reflexivity|]);
    (split; [assumption|]); exists []; now rewrite !app_nil_r.
Qed.

Lemma agree_getitem (c : string) (t : table) : agree R (getitem c t).
Proof.
  unfold getitem. destruct (get_column c t);
    [apply agree_ret | apply agree_raise].
Qed.

Lemma agree_read_file (p : string) : agree R (read_file p).
Proof.
  intros w1 w2 H. unfold read_file. cbn.
  split; [now rewrite (R_files w1 w2 H p)|]. split; [exact H|].
  exists []. now rewrite !app_nil_r.
Qed.

(** One step through a computation built from the operations above. *)
Ltac agree_step :=
  first
    [ apply agree_ret | apply agree_raise | apply agree_print
    | apply agree_savefig | apply agree_ensure_images_dir
    | apply agree_getitem | apply agree_read_file
    | apply agree_bind; [|intros ?]
    | match goal with
      | |- agree _ (match ?x with _ => _ end) => destruct x
      end ].

Lemma agree_groupby_mean (keys vals : series) :
  agree R (groupby_mean keys vals).
Proof. unfold groupby_mean. repeat agree_step. Qed.

Lemma agree_map_pnl (df : DataFrame) : agree R (map_pnl df).
Proof. unfold map_pnl. repeat agree_step. Qed.

Lemma agree_map_leverage (df : DataFrame) : agree R (map_leverage df).
Proof. unfold map_leverage. repeat agree_step. Qed.

Lemma agree_map_sentiment (df : DataFrame) : agree R (map_sentiment df).
Proof. unfold map_sentiment. repeat agree_step. Qed.

Lemma agree_plot_pnl (df : DataFrame) : agree R (plot_pnl df).
Proof.
  unfold plot_pnl.
  repeat first [apply agree_groupby_mean | agree_step].
Qed.

Lemma agree_plot_leverage (df : DataFrame) : agree R (plot_leverage df).
Proof. unfold plot_leverage. repeat agree_step. Qed.

Lemma agree_plot_win_rate (df : DataFrame) : agree R (plot_win_rate df).
Proof.
  unfold plot_win_rate.
  repeat first [apply agree_groupby_mean | agree_step].
Qed.

Lemma agree_analyze (trader_df sentiment_df : DataFrame) :
  agree R (analyze_and_visualize trader_df sentiment_df).
Proof.
  unfold analyze_and_visualize. cbv zeta.
  repeat first
    [ apply agree_map_pnl | apply agree_map_leverage
    | apply agree_map_sentiment | apply agree_plot_pnl
    | apply agree_plot_leverage | apply agree_plot_win_rate
    | agree_step ].
Qed.

Variable to_datetime_ms : series -> list (option Z).
Variable to_datetime_mixed : series -> list (option Z).
Variable show_date : option Z -> string.

Lemma agree_load :
  agree R (load_and_clean_data to_datetime_ms to_datetime_mixed
                               show_date).
Proof.
  unfold load_and_clean_data, load_input, trader_datetime,
    sentiment_datetime, finish_load. cbv zeta.
  repeat agree_step.
Qed.

Lemma agree_main :
  agree R (main to_datetime_ms to_datetime_mixed show_date).
Proof.
  unfold main.
  repeat first [apply agree_load | apply agree_analyze | agree_step].
Qed.

End Determinism.

(** The sample pipeline run: one trade on the day of score 20, two on the
    day of score 80, one of them with an empty profit/loss cell. *)
Example sample_run_charts :
  charts (snd (main sample_ms sample_mixed sample_show fresh_world))
  = [BarChart "images/pnl_by_sentiment.png"
       [("Extreme Fear", Fin (2469 # 2)); ("Extreme Greed", Fin (-3))];
     BarChart "images/win_rate_by_sentiment.png"
       [("Extreme Fear", Fin 1); ("Extreme Greed", Fin (0 # 2))]].
Proof. vm_compute. reflexivity. Qed.

(** * Further properties *)

(** ** The mapping steps *)

Lemma first_column_set_other (p : string -> bool) (c : string) (s : series)
  (t : table) :
  p c = false -> first_column p (set_column c s t) = first_column p t.
Proof.
  intro H. unfold first_column.
  induction t as [|[n s0] t IH]; simpl.
  - now rewrite H.
  - destruct (String.eqb n c) eqn:E; simpl.
    + apply String.eqb_eq in E. now subst n.
    + destruct (p n); [reflexivity | exact IH].
Qed.

Lemma first_column_holds (p : string -> bool) (t : table) (c : string) :
  first_column p t = Some c -> p c = true.
Proof. unfold first_column. intro H. now apply find_some in H. Qed.

Lemma first_column_none (p : string -> bool) (t : table) (c : string) :
  first_column p t = None -> p c = true -> get_column c t = None.
Proof.
  unfold first_column. intros F P. apply get_column_None.
  destruct (name_in c (names t)) eqn:E; [|reflexivity].
  apply name_in_In in E. pose proof (find_none _ _ F _ E). congruence.
Qed.

Lemma map_pnl_step (m : DataFrame) (w : world) :
  map_pnl m w =
    (Ok (pnl_step m),
     if is_some (first_column is_pnl_name (columns m)) then w
     else log ["WARNING: PnL column not found."] w).
Proof.
  unfold map_pnl, pnl_step, bind, getitem.
  destruct (first_column is_pnl_name (columns m)) as [c|] eqn:F;
    [|reflexivity].
  destruct (first_column_get _ _ _ F) as [col G]. rewrite G.
  destruct col; reflexivity.
Qed.

Lemma map_leverage_step (m : DataFrame) (w : world) :
  map_leverage m w = (Ok (lev_step m), w).
Proof.
  unfold map_leverage, lev_step, lev_clean_of, bind, getitem.
  destruct (first_column is_leverage_name (columns m)) as [c|] eqn:F;
    [|reflexivity].
  destruct (first_column_get _ _ _ F) as [col G]. now rewrite G.
Qed.

Lemma map_sentiment_step (m : DataFrame) (w : world) :
  map_sentiment m w = (Ok (val_step m), w).
Proof.
  unfold val_step.
  destruct (first_column is_value_name (columns m)) as [c|] eqn:F.
  - destruct (first_column_get _ _ _ F) as [col G]. rewrite G.
    exact (map_sentiment_found m w c col F G).
  - unfold map_sentiment. now rewrite F.
Qed.

Lemma pnl_step_numeric (m : DataFrame) (pnl : series) :
  get_column "pnl_clean" (columns (pnl_step m)) = Some pnl ->
  exists vs, numeric_values pnl = Some vs.
Proof.
  intro G.
  exact (pnl_clean_numeric m (pnl_step m) empty_world _ pnl
           (map_pnl_step m empty_world) G).
Qed.

(** The columns the later steps and the plots read, after the three
    mapping steps. *)
Lemma mapped_pnl_clean (m : DataFrame) :
  get_column "pnl_clean" (columns (val_step (lev_step (pnl_step m))))
  = get_column "pnl_clean" (columns (pnl_step m)).
Proof.
  unfold val_step.
  destruct (first_column is_value_name (columns (lev_step (pnl_step m))))
    as [c|]; [destruct (get_column c _)|]; unfold lev_step;
    cbn [assign columns]; now rewrite ?get_set_other by discriminate.
Qed.

Lemma mapped_lev_clean (m : DataFrame) :
  get_column "lev_clean" (columns (val_step (lev_step (pnl_step m))))
  = Some (lev_clean_of (pnl_step m)).
Proof.
  unfold val_step.
  destruct (first_column is_value_name (columns (lev_step (pnl_step m))))
    as [c|]; [destruct (get_column c _)|]; unfold lev_step;
    cbn [assign columns];
    rewrite ?get_set_other by discriminate; apply get_set_same.
Qed.

Lemma lev_clean_of_pnl_step (m : DataFrame) :
  lev_clean_of (pnl_step m) = lev_clean_of m.
Proof.
  unfold pnl_step.
  destruct (first_column is_pnl_name (columns m)) as [c|]; [|reflexivity].
  destruct (get_column c (columns m)) as [col|]; [|reflexivity].
  unfold lev_clean_of, assign, nrows. cbn [columns date_key].
  rewrite first_column_set_other by reflexivity.
  destruct (first_column is_leverage_name (columns m)) as [l|] eqn:F;
    [|reflexivity].
  rewrite get_set_other; [reflexivity|].
  intro E. subst l. apply first_column_holds in F. vm_compute in F.
  discriminate.
Qed.

Lemma value_search_mapped (m : DataFrame) :
  first_column is_value_name (columns (lev_step (pnl_step m)))
  = first_column is_value_name (columns m).
Proof.
  unfold lev_step. cbn [assign columns].
  rewrite first_column_set_other by reflexivity.
  unfold pnl_step.
  destruct (first_column is_pnl_name (columns m)) as [c|]; [|reflexivity].
  destruct (get_column c (columns m)) as [col|]; [|reflexivity].
  cbn [assign columns]. now rewrite first_column_set_other by reflexivity.
Qed.

Lemma mapped_sentiment_value (m : DataFrame) :
  is_some (get_column "sentiment_value"
             (columns (val_step (lev_step (pnl_step m)))))
  = is_some (first_column is_value_name (columns m)).
Proof.
  rewrite <- value_search_mapped. unfold val_step.
  destruct (first_column is_value_name (columns (lev_step (pnl_step m))))
    as [c|] eqn:F.
  - destruct (first_column_get _ _ _ F) as [col G]. rewrite G.
    cbn [assign columns]. rewrite get_set_other by discriminate.
    now rewrite get_set_same.
  - now rewrite (first_column_none _ _ "sentiment_value" F).
Qed.

(** ** The plots, case by case *)

Lemma has_column_get (c : string) (df : DataFrame) :
  has_column c df = true -> exists s, get_column c (columns df) = Some s.
Proof.
  unfold has_column. intro H. apply get_column_In. now apply name_in_In.
Qed.

Lemma plot_leverage_cases (d : DataFrame) (w : world) (lev : series) :
  get_column "lev_clean" (columns d) = Some lev ->
  (notna_any lev = false -> exists w', plot_leverage d w = (Ok tt, w')) /\
  (notna_any lev = true ->
   (get_column "sentiment_value" (columns d) = None ->
    plot_leverage d w = (Raise (KeyError "sentiment_value"), w)) /\
   (forall xs, get_column "sentiment_value" (columns d) = Some xs ->
               exists w', plot_leverage d w = (Ok tt, w'))).
Proof.
  intro L. unfold plot_leverage. rewrite L. split; intro N; rewrite N.
  - eexists. apply print_log.
  - split.
    + intro S. unfold bind, getitem. now rewrite S.
    + intros xs S. unfold bind, getitem, ret. rewrite S, L.
      eexists. reflexivity.
Qed.

(** ** Date ranges and the join *)

Lemma fold_max_from (l : list (option Z)) (a : Z) :
  exists M, fold_left (opt_bin Z.max) l (Some a) = Some M /\ (a <= M)%Z.
Proof.
  revert a. induction l as [|[x|] l IH]; intro a; simpl.
  - exists a. split; [reflexivity | lia].
  - destruct (IH (Z.max a x)) as [M [E L]]. exists M. split; [exact E | lia].
  - apply IH.
Qed.

Lemma fold_min_from (l : list (option Z)) (a : Z) :
  exists M, fold_left (opt_bin Z.min) l (Some a) = Some M /\ (M <= a)%Z.
Proof.
  revert a. induction l as [|[x|] l IH]; intro a; simpl.
  - exists a. split; [reflexivity | lia].
  - destruct (IH (Z.min a x)) as [M [E L]]. exists M. split; [exact E | lia].
  - apply IH.
Qed.

Lemma fold_max_bound (l : list (option Z)) (acc : option Z) (k : Z) :
  In (Some k) l ->
  exists M, fold_left (opt_bin Z.max) l acc = Some M /\ (k <= M)%Z.
Proof.
  revert acc. induction l as [|x l IH]; intros acc I; [destruct I|].
  destruct I as [E | I].
  - subst x. simpl. destruct acc as [a|]; simpl.
    + destruct (fold_max_from l (Z.max a k)) as [M [E L]].
      exists M. split; [exact E | lia].
    + apply fold_max_from.
  - simpl. now apply IH.
Qed.

Lemma fold_min_bound (l : list (option Z)) (acc : option Z) (k : Z) :
  In (Some k) l ->
  exists M, fold_left (opt_bin Z.min) l acc = Some M /\ (M <= k)%Z.
Proof.
  revert acc. induction l as [|x l IH]; intros acc I; [destruct I|].
  destruct I as [E | I].
  - subst x. simpl. destruct acc as [a|]; simpl.
    + destruct (fold_min_from l (Z.min a k)) as [M [E L]].
      exists M. split; [exact E | lia].
    + apply fold_min_from.
  - simpl. now apply IH.
Qed.

Lemma ranges_disjoint_keys (lk rk : list (option Z)) (k : Z) :
  ranges_disjoint lk rk = true ->
  In (Some k) lk -> ~ In (Some k) rk.
Proof.
  unfold ranges_disjoint, date_max, date_min. intros D L R.
  destruct (fold_max_bound lk None k L) as [M1 [E1 B1]].
  destruct (fold_min_bound lk None k L) as [m1 [F1 C1]].
  destruct (fold_max_bound rk None k R) as [M2 [E2 B2]].
  destruct (fold_min_bound rk None k R) as [m2 [F2 C2]].
  rewrite E1, E2, F1, F2 in D. simpl in D.
  apply orb_true_iff in D. destruct D as [D | D];
    apply Z.ltb_lt in D; lia.
Qed.

Lemma analyze_on_empty_merge (trader_df sentiment_df : DataFrame)
  (w : world) :
  date_key (merge_inner trader_df sentiment_df) = [] ->
  analyze_and_visualize trader_df sentiment_df w =
    (Ok (merge_inner trader_df sentiment_df),
     log [nl ++ "--- 2. MERGING & MAPPING ---";
          "Merged Rows: 0";
          "ERROR: Merged DataFrame is still empty."] w).
Proof.
  intro E.
  unfold analyze_and_visualize, bind, print, ret, df_empty, nrows, log.
  rewrite E. cbn [files images_dir console charts List.length].
  rewrite <- !app_assoc. reflexivity.
Qed.

(** X2. When the loader's date-range test holds (one table's latest date
    is before the other's earliest, the condition of its warning), and the
    trader table has no [NaT] key, the join is empty: the analyzer prints
    the row count 0 and its error line and returns without a chart. *)
Theorem disjoint_ranges_abort (trader_df sentiment_df : DataFrame)
  (w : world) :
  Forall (fun k => is_some k = true) (date_key trader_df) ->
  ranges_disjoint (date_key trader_df) (date_key sentiment_df) = true ->
  nrows (merge_inner trader_df sentiment_df) = 0%nat /\
  analyze_and_visualize trader_df sentiment_df w =
    (Ok (merge_inner trader_df sentiment_df),
     log [nl ++ "--- 2. MERGING & MAPPING ---";
          "Merged Rows: 0";
          "ERROR: Merged DataFrame is still empty."] w).
Proof.
  intros S D.
  assert (E : date_key (merge_inner trader_df sentiment_df) = []).
  { apply merge_disjoint_empty. intros k I.
    rewrite Forall_forall in S. specialize (S k I).
    destruct k as [z|]; [|discriminate].
    exact (ranges_disjoint_keys _ _ z D I). }
  split; [unfold nrows; now rewrite E|].
  now apply analyze_on_empty_merge.
Qed.

Lemma disjoint_ranges_abort_witness :
  nrows (merge_inner three_trades scores_days_12) = 0%nat /\
  analyze_and_visualize three_trades scores_days_12 empty_world =
    (Ok (merge_inner three_trades scores_days_12),
     log [nl ++ "--- 2. MERGING & MAPPING ---";
          "Merged Rows: 0";
          "ERROR: Merged DataFrame is still empty."] empty_world).
Proof.
  apply (disjoint_ranges_abort three_trades scores_days_12 empty_world).
  - repeat constructor.
  - reflexivity.
Defined.

(** ** The loader's success path *)

Lemma get_column_pair (c : string) (s : series) (t : table) :
  get_column c t = Some s -> In (c, s) t.
Proof.
  induction t as [|[n s0] t IH]; simpl; [discriminate|].
  destruct (String.eqb n c) eqn:E.
  - apply String.eqb_eq in E. intro H. injection H as ->. subst. now left.
  - intro H. right. now apply IH.
Qed.

Lemma normalize_day_midnight (t : option Z) :
  is_some t = true -> is_midnight (normalize_day t) = true.
Proof.
  destruct t as [ms|]; [|discriminate]. intros _. simpl.
  apply Z.eqb_eq. rewrite Zminus_mod, Z.mod_mod, Z.sub_diag by discriminate.
  reflexivity.
Qed.

Lemma with_date_key_midnight (helpers : list string)
  (dt : list (option Z)) (t : table) :
  Forall (fun k => is_midnight k = true)
         (date_key (with_date_key helpers (map normalize_day dt) t)).
Proof.
  unfold with_date_key. cbn [date_key]. apply Forall_forall. intros k I.
  apply filter_In in I. destruct I as [I S].
  apply in_map_iff in I. destruct I as [x [<- _]].
  apply normalize_day_midnight. now destruct x.
Qed.

Lemma with_date_key_names (helpers : list string) (keys : list (option Z))
  (t : table) (c : string) :
  In c (names (columns (with_date_key helpers keys t))) ->
  In c (names t) /\ name_in c helpers = false.
Proof.
  unfold with_date_key, names. cbn [columns]. rewrite map_map. cbn [fst].
  intro I. apply in_map_iff in I. destruct I as [[n s] [<- I]].
  apply filter_In in I. destruct I as [I H]. cbn [fst] in *.
  split; [now apply (in_map fst) in I|]. now apply negb_true_iff in H.
Qed.

Lemma filter_mask_length {A : Type} (mask : list bool) (l : list A) :
  List.length mask = List.length l ->
  List.length (map snd (filter fst (combine mask l)))
  = List.length (filter (fun b => b) mask).
Proof.
  revert l. induction mask as [|b mask IH]; intros [|x l] E; simpl in *;
    try reflexivity; try discriminate.
  injection E as E. destruct b; simpl; now rewrite IH.
Qed.

Lemma series_filter_len (mask : list bool) (s : series) :
  List.length mask = series_len s ->
  series_len (series_filter mask s)
  = List.length (filter (fun b => b) mask).
Proof.
  destruct s; simpl; apply filter_mask_length.
Qed.

Lemma filter_map_is_some (keys : list (option Z)) :
  List.length (filter (fun b => b) (map is_some keys))
  = List.length (filter is_some keys).
Proof.
  induction keys as [|k keys IH]; simpl; [reflexivity|].
  destruct (is_some k); simpl; now rewrite IH.
Qed.

(** [dropna] keeps the columns aligned with the key column. *)
Lemma with_date_key_well_formed (helpers : list string)
  (keys : list (option Z)) (t : table) :
  table_rows (List.length keys) t ->
  well_formed (with_date_key helpers keys t).
Proof.
  unfold table_rows, well_formed, with_date_key, nrows.
  cbn [columns date_key]. intro T. apply Forall_forall.
  intros [n s] I. apply in_map_iff in I. destruct I as [[n0 s0] [E I]].
  injection E as <- <-. apply filter_In in I. destruct I as [I _].
  rewrite Forall_forall in T. specialize (T _ I). cbn [snd] in *.
  rewrite series_filter_len by (now rewrite length_map).
  apply filter_map_is_some.
Qed.

Lemma normalize_columns_rows (n : nat) (t : table) :
  table_rows n t -> table_rows n (normalize_columns t).
Proof.
  unfold table_rows, normalize_columns. intro T.
  apply Forall_forall. intros cs I. apply in_map_iff in I.
  destruct I as [[c s] [<- I]]. rewrite Forall_forall in T.
  exact (T _ I).
Qed.

Section LoaderSuccess.

Variable to_datetime_ms : series -> list (option Z).
Variable to_datetime_mixed : series -> list (option Z).
Variable show_date : option Z -> string.

(** The time column the loader parses, when it finds one. *)
Lemma trader_datetime_found (t : table) (w : world) :
  trader_time_found t = true ->
  exists c col msg,
    get_column c t = Some col /\
    trader_datetime to_datetime_ms to_datetime_mixed t w =
      (Ok (Some (if String.eqb c "timestamp" then to_datetime_ms col
                 else to_datetime_mixed col)),
       log [msg] w).
Proof.
  unfold trader_time_found, trader_datetime. intro F.
  destruct (name_in "timestamp" (names t)
            && match get_column "timestamp" t with
               | Some col => is_numeric_dtype col
               | None => false
               end) eqn:C1.
  - apply andb_true_iff in C1. destruct C1 as [_ C1].
    destruct (get_column "timestamp" t) as [col|] eqn:G; [|discriminate].
    exists "timestamp", col. eexists. split; [exact G|].
    unfold bind, getitem. rewrite print_log, G. reflexivity.
  - cbn [orb] in F. rewrite F.
    apply name_in_In in F. apply get_column_In in F.
    destruct F as [col G].
    exists "timestamp ist", col. eexists. split; [exact G|].
    unfold bind, getitem. rewrite print_log, G. reflexivity.
Qed.

Lemma sentiment_datetime_found (t : table) (w : world) :
  sentiment_date_found t = true ->
  exists c col msg,
    get_column c t = Some col /\
    sentiment_datetime to_datetime_mixed t w =
      (Ok (Some (to_datetime_mixed col)), log [msg] w).
Proof.
  unfold sentiment_date_found, sentiment_datetime. intro F.
  destruct (name_in "date" (names t)) eqn:C1.
  - apply name_in_In in C1. apply get_column_In in C1.
    destruct C1 as [col G]. exists "date", col. eexists.
    split; [exact G|]. unfold bind, getitem. rewrite print_log, G.
    reflexivity.
  - cbn [orb] in F. rewrite F.
    apply name_in_In in F. apply get_column_In in F.
    destruct F as [col G]. exists "timestamp", col. eexists.
    split; [exact G|]. unfold bind, getitem. rewrite print_log, G.
    reflexivity.
Qed.

(** The frames a successful load returns. *)
Lemma load_success (w : world) (t s : table) :
  trader_input w = Some t ->
  sentiment_input w = Some s ->
  trader_time_found (normalize_columns t) = true ->
  sentiment_date_found (normalize_columns s) = true ->
  exists c1 col1 c2 col2 lines,
    get_column c1 (normalize_columns t) = Some col1 /\
    get_column c2 (normalize_columns s) = Some col2 /\
    load_and_clean_data to_datetime_ms to_datetime_mixed show_date w =
      (Ok (Some (with_date_key ["datetime"; "date_key"]
                   (map normalize_day
                        (if String.eqb c1 "timestamp"
                         then to_datetime_ms col1
                         else to_datetime_mixed col1))
                   (normalize_columns t)),
           Some (with_date_key ["date_key_raw"; "date_key"]
                   (map normalize_day (to_datetime_mixed col2))
                   (normalize_columns s))),
       log lines w).
Proof.
  intros T S F G.
  remember (log ["--- 1. LOADING & DIAGNOSING DATA ---"] w) as w1 eqn:W1.
  assert (T1 : trader_input w1 = Some t) by (subst w1; exact T).
  assert (S1 : sentiment_input w1 = Some s) by (subst w1; exact S).
  unfold load_and_clean_data, bind.
  rewrite print_log, <- W1, load_input_trader, T1.
  rewrite load_input_sentiment, S1. cbv zeta.
  destruct (trader_datetime_found (normalize_columns t) w1 F)
    as (c1 & col1 & m1 & G1 & R1). rewrite R1.
  destruct (sentiment_datetime_found (normalize_columns s) (log [m1] w1) G)
    as (c2 & col2 & m2 & G2 & R2). rewrite R2.
  destruct (finish_load_ok show_date (normalize_columns t)
              (normalize_columns s)
              (if String.eqb c1 "timestamp" then to_datetime_ms col1
               else to_datetime_mixed col1)
              (to_datetime_mixed col2) (log [m2] (log [m1] w1)))
    as [lines E].
  rewrite E. subst w1. rewrite !log_log.
  exists c1, col1, c2, col2. eexists. repeat split; eassumption.
Qed.

(** X3. Whenever the loader returns, it returns [(None, None)], and then
    the input is one of the four failure configurations, or it returns both
    frames, and then the input is none of them: it never returns one frame
    without the other.  Headers are taken to be ASCII text. *)
Theorem loader_result_shape (w : world)
  (r : option DataFrame * option DataFrame) (w' : world) :
  (forall p t, files w p = Some t -> ascii_headers t) ->
  load_and_clean_data to_datetime_ms to_datetime_mixed show_date w
  = (Ok r, w') ->
  (r = (None, None) /\ load_fails w) \/
  (exists td sd, r = (Some td, Some sd) /\ ~ load_fails w).
Proof.
  intros _ E.
  pose proof (load_cases to_datetime_ms to_datetime_mixed show_date w) as C.
  cbv zeta in C. unfold load_fails.
  destruct (trader_input w) as [t|] eqn:T.
  2: { left. rewrite C in E. injection E as <- _.
       split; [reflexivity | now left]. }
  destruct (sentiment_input w) as [s|] eqn:S.
  2: { left. rewrite C in E. injection E as <- _.
       split; [reflexivity | right; now left]. }
  destruct (trader_time_found (normalize_columns t)) eqn:F; cbn [negb] in C.
  2: { left. rewrite C in E. injection E as <- _.
       split; [reflexivity|]. right. right. left. now exists t. }
  destruct (sentiment_date_found (normalize_columns s)) eqn:G;
    cbn [negb] in C.
  2: { left. destruct C as [m C]. rewrite C in E. injection E as <- _.
       split; [reflexivity|]. right. right. right. now exists s. }
  right. destruct C as (td & sd & lines & C). rewrite C in E.
  injection E as <- _. exists td, sd. split; [reflexivity|].
  intros [H | [H | [(t' & H & H') | (s' & H & H')]]]; congruence.
Qed.

(** X4. In the frames of a successful load every date key is a timestamp
    at midnight: the time of day is removed and the rows whose date did not
    parse ([NaT]) are dropped. *)
Theorem loaded_frames_clean (w : world) (td sd : DataFrame) (w' : world) :
  load_and_clean_data to_datetime_ms to_datetime_mixed show_date w
  = (Ok (Some td, Some sd), w') ->
  Forall (fun k => is_midnight k = true) (date_key td) /\
  Forall (fun k => is_midnight k = true) (date_key sd).
Proof.
  intro E.
  pose proof (load_cases to_datetime_ms to_datetime_mixed show_date w) as C.
  cbv zeta in C.
  destruct (trader_input w) as [t|] eqn:T; [|congruence].
  destruct (sentiment_input w) as [s|] eqn:S; [|congruence].
  destruct (trader_time_found (normalize_columns t)) eqn:F; cbn [negb] in C;
    [|congruence].
  destruct (sentiment_date_found (normalize_columns s)) eqn:G;
    cbn [negb] in C; [|destruct C as [m C]; congruence].
  clear C.
  destruct (load_success w t s T S F G)
    as (c1 & col1 & c2 & col2 & lines & _ & _ & R).
  rewrite R in E. injection E as <- <- _.
  split; apply with_date_key_midnight.
Qed.

(** X5. When every column of the two input tables has as many values as
    the table has rows, and the date parsers return one value per row, the
    loaded frames are aligned: dropping the rows without a date leaves
    every column with exactly one value per remaining date key. *)
Theorem loaded_frames_aligned (w : world) (t s : table) (n k : nat)
  (td sd : DataFrame) (w' : world) :
  (forall col, List.length (to_datetime_ms col) = series_len col) ->
  (forall col, List.length (to_datetime_mixed col) = series_len col) ->
  trader_input w = Some t ->
  sentiment_input w = Some s ->
  table_rows n t ->
  table_rows k s ->
  load_and_clean_data to_datetime_ms to_datetime_mixed show_date w
  = (Ok (Some td, Some sd), w') ->
  well_formed td /\ well_formed sd.
Proof.
  intros Lms Lmx T S Rt Rs E.
  pose proof (load_cases to_datetime_ms to_datetime_mixed show_date w) as C.
  cbv zeta in C. rewrite T, S in C.
  destruct (trader_time_found (normalize_columns t)) eqn:F; cbn [negb] in C;
    [|congruence].
  destruct (sentiment_date_found (normalize_columns s)) eqn:G;
    cbn [negb] in C; [|destruct C as [m C]; congruence].
  clear C.
  destruct (load_success w t s T S F G)
    as (c1 & col1 & c2 & col2 & lines & G1 & G2 & R).
  rewrite R in E. injection E as <- <- _.
  apply normalize_columns_rows in Rt, Rs.
  assert (L1 : series_len col1 = n).
  { apply get_column_pair in G1. unfold table_rows in Rt.
    rewrite Forall_forall in Rt. exact (Rt _ G1). }
  assert (L2 : series_len col2 = k).
  { apply get_column_pair in G2. unfold table_rows in Rs.
    rewrite Forall_forall in Rs. exact (Rs _ G2). }
  split; apply with_date_key_well_formed; rewrite length_map.
  - destruct (String.eqb c1 "timestamp");
      [rewrite Lms | rewrite Lmx]; now rewrite L1.
  - now rewrite Lmx, L2.
Qed.

End LoaderSuccess.

Lemma sample_parsers_length :
  (forall col, List.length (sample_ms col) = series_len col) /\
  (forall col, List.length (sample_mixed col) = series_len col).
Proof.
  split; intros [l|l|l|l]; simpl; now rewrite !length_map.
Qed.

Lemma loader_result_shape_witness :
  ((@None DataFrame, @None DataFrame) = (None, None) /\
   load_fails trader_only_world) \/
  (exists td sd, (@None DataFrame, @None DataFrame) = (Some td, Some sd) /\
                 ~ load_fails trader_only_world).
Proof.
  apply (loader_result_shape (fun _ => []) (fun _ => [])
           (fun _ => "NaT") trader_only_world (None, None)
           (snd (load_and_clean_data (fun _ => []) (fun _ => [])
                   (fun _ => "NaT") trader_only_world))).
  - intros p t H. unfold trader_only_world in H. cbn [files] in H.
    destruct (String.eqb p "historical_data.csv"); [|discriminate].
    injection H as <-. repeat constructor.
  - reflexivity.
Defined.

Lemma loaded_frames_clean_witness :
  Forall (fun k => is_midnight k = true) (date_key sample_trader_frame) /\
  Forall (fun k => is_midnight k = true) (date_key sample_sentiment_frame).
Proof.
  apply (loaded_frames_clean sample_ms sample_mixed sample_show fresh_world
           sample_trader_frame sample_sentiment_frame
           (snd (load_and_clean_data sample_ms sample_mixed sample_show
                   fresh_world))).
  reflexivity.
Defined.

Lemma loaded_frames_aligned_witness :
  well_formed sample_trader_frame /\ well_formed sample_sentiment_frame.
Proof.
  apply (loaded_frames_aligned sample_ms sample_mixed sample_show
           fresh_world sample_trader_table sample_sentiment_table 3 2
           sample_trader_frame sample_sentiment_frame
           (snd (load_and_clean_data sample_ms sample_mixed sample_show
                   fresh_world))).
  - apply sample_parsers_length.
  - apply sample_parsers_length.
  - reflexivity.
  - reflexivity.
  - repeat constructor.
  - repeat constructor.
  - reflexivity.
Defined.

(** ** The join keeps the columns aligned *)

Lemma take_length {A : Type} (idx : list nat) (l : list A) :
  Forall (fun i => (i < List.length l)%nat) idx ->
  List.length (take idx l) = List.length idx.
Proof.
  unfold take. induction 1 as [|i idx H _ IH]; simpl; [reflexivity|].
  apply nth_error_Some in H.
  destruct (nth_error l i); [|congruence]. simpl. now rewrite IH.
Qed.

Lemma series_take_len (idx : list nat) (s : series) :
  Forall (fun i => (i < series_len s)%nat) idx ->
  series_len (series_take idx s) = List.length idx.
Proof. destruct s; simpl; apply take_length. Qed.

Lemma enumerate_bound {A : Type} (l : list A) (i : nat) (x : A) :
  In (i, x) (enumerate l) -> (i < List.length l)%nat.
Proof.
  unfold enumerate. intro I. apply in_combine_l in I.
  apply in_seq in I. lia.
Qed.

Lemma join_pairs_bound (lk rk : list (option Z)) (i j : nat) :
  In (i, j) (join_pairs lk rk) ->
  (i < List.length lk)%nat /\ (j < List.length rk)%nat.
Proof.
  unfold join_pairs, matches. intro I. apply in_flat_map in I.
  destruct I as [[i0 k] [I J]]. cbn [fst snd] in J.
  apply in_map_iff in J. destruct J as [j0 [E J]]. injection E as <- <-.
  apply in_map_iff in J. destruct J as [[j1 k1] [E J]]. cbn [fst] in E.
  subst j1. apply filter_In in J. destruct J as [J _].
  split; [exact (enumerate_bound _ _ _ I) | exact (enumerate_bound _ _ _ J)].
Qed.

(** X6. The inner join of two aligned frames is aligned: every column of
    the merged frame, from either table, has exactly one value per merged
    row. *)
Theorem merge_well_formed (l r : DataFrame) :
  well_formed l -> well_formed r -> well_formed (merge_inner l r).
Proof.
  unfold well_formed. intros L R.
  set (ps := join_pairs (date_key l) (date_key r)).
  assert (BL : Forall (fun i => (i < nrows l)%nat) (map fst ps)).
  { apply Forall_forall. intros i I. apply in_map_iff in I.
    destruct I as [[i0 j] [<- I]]. now apply join_pairs_bound in I. }
  assert (BR : Forall (fun i => (i < nrows r)%nat) (map snd ps)).
  { apply Forall_forall. intros i I. apply in_map_iff in I.
    destruct I as [[i0 j] [<- I]]. now apply join_pairs_bound in I. }
  assert (N : nrows (merge_inner l r) = List.length ps).
  { unfold nrows, merge_inner. cbn [date_key]. fold ps.
    rewrite take_length by exact BL. apply length_map. }
  rewrite N. unfold merge_inner. cbn [columns]. fold ps.
  apply Forall_app. split; apply Forall_forall; intros [c s] I;
    apply in_map_iff in I; destruct I as [[c0 s0] [E I]];
    injection E as <- <-; cbn [snd].
  - rewrite Forall_forall in L. specialize (L _ I). cbn [snd] in L.
    rewrite series_take_len by (now rewrite L). apply length_map.
  - rewrite Forall_forall in R. specialize (R _ I). cbn [snd] in R.
    rewrite series_take_len by (now rewrite R). apply length_map.
Qed.

Lemma merge_well_formed_witness :
  well_formed (merge_inner three_trades two_scores_same_day).
Proof.
  apply (merge_well_formed three_trades two_scores_same_day);
    repeat constructor.
Defined.

(** ** The join keeps every trade that has a sentiment row *)

Lemma take_join_values {A : Type} (rk : list (option Z)) (pre : list A)
  (lk : list (option Z)) (l : list A) :
  List.length l = List.length lk ->
  take (map fst
          (flat_map (fun ik : nat * option Z =>
                       map (fun j => (fst ik, j)) (matches (snd ik) rk))
                    (combine (seq (List.length pre) (List.length lk)) lk)))
       (pre ++ l)
  = flat_map (fun kx => repeat (snd kx) (count_key (fst kx) rk))
             (combine lk l).
Proof.
  revert pre l. induction lk as [|k lk IH]; intros pre [|x l] E;
    simpl in *; try reflexivity; try discriminate.
  injection E as E. rewrite map_app, take_app. f_equal.
  - rewrite (take_const (List.length pre) x).
    + now rewrite matches_length.
    + rewrite nth_error_app2 by lia. now rewrite Nat.sub_diag.
  - specialize (IH (pre ++ [x])%list l E).
    rewrite length_app in IH. simpl in IH.
    rewrite Nat.add_1_r, <- app_assoc in IH. exact IH.
Qed.

Lemma take_join_all {A : Type} (lk rk : list (option Z)) (l : list A) :
  List.length l = List.length lk ->
  (forall k, In k lk -> count_key k rk = 1%nat) ->
  take (map fst (join_pairs lk rk)) l = l.
Proof.
  intros E C. unfold join_pairs, enumerate.
  pose proof (take_join_values rk [] lk l E) as T. cbn [List.length app] in T.
  rewrite T. clear T. revert l E C.
  induction lk as [|k lk IH]; intros [|x l] E C; simpl in *;
    try reflexivity; try discriminate.
  injection E as E. rewrite (C k) by now left. simpl. f_equal.
  apply IH; [exact E|]. intros k' I. apply C. now right.
Qed.

Lemma series_take_all (lk rk : list (option Z)) (s : series) :
  series_len s = List.length lk ->
  (forall k, In k lk -> count_key k rk = 1%nat) ->
  series_take (map fst (join_pairs lk rk)) s = s.
Proof.
  intros E C. destruct s; simpl in *; f_equal; now apply take_join_all.
Qed.

Lemma filter_none_from (k : option Z) (rk : list (option Z)) (a : nat) :
  ~ In k rk ->
  filter (fun jk : nat * option Z => key_eqb k (snd jk))
         (combine (seq a (List.length rk)) rk) = [].
Proof.
  revert a. induction rk as [|x rk IH]; intros a N; simpl; [reflexivity|].
  destruct (key_eqb k x) eqn:E.
  - apply key_eqb_eq in E. subst. exfalso. apply N. now left.
  - apply IH. intro I. apply N. now right.
Qed.

Lemma matches_unique_from (k : option Z) (rk : list (option Z)) (a : nat) :
  NoDup rk -> In k rk ->
  map fst (filter (fun jk : nat * option Z => key_eqb k (snd jk))
                  (combine (seq a (List.length rk)) rk))
  = [(a + key_index k rk)%nat].
Proof.
  intro N. revert a. induction N as [|x rk X N IH]; intros a I;
    [destruct I|].
  simpl. destruct (key_eqb k x) eqn:E.
  - apply key_eqb_eq in E. subst x. simpl.
    rewrite filter_none_from by exact X. simpl. now rewrite Nat.add_0_r.
  - destruct I as [I | I].
    + subst x. assert (key_eqb k k = true) by now apply key_eqb_eq.
      congruence.
    + rewrite (IH (S a) I). f_equal. lia.
Qed.

Lemma matches_unique (k : option Z) (rk : list (option Z)) :
  NoDup rk -> In k rk -> matches k rk = [key_index k rk].
Proof.
  intros N I. unfold matches, enumerate.
  now rewrite (matches_unique_from k rk 0 N I).
Qed.

Lemma key_index_nth (k : option Z) (rk : list (option Z)) :
  In k rk -> nth_error rk (key_index k rk) = Some k.
Proof.
  induction rk as [|x rk IH]; intro I; [destruct I|].
  simpl. destruct (key_eqb k x) eqn:E.
  - apply key_eqb_eq in E. now subst.
  - destruct I as [I | I].
    + subst x. assert (key_eqb k k = true) by now apply key_eqb_eq.
      congruence.
    + simpl. now apply IH.
Qed.

Lemma join_right_from (lk rk : list (option Z)) (a : nat) :
  NoDup rk ->
  (forall k, In k lk -> In k rk) ->
  map snd
      (flat_map (fun ik : nat * option Z =>
                   map (fun j => (fst ik, j)) (matches (snd ik) rk))
                (combine (seq a (List.length lk)) lk))
  = map (fun k => key_index k rk) lk.
Proof.
  intros N A. revert a. induction lk as [|k lk IH]; intro a; simpl;
    [reflexivity|].
  rewrite map_app. cbn [snd fst].
  rewrite (matches_unique k rk N) by (apply A; now left).
  simpl. f_equal. apply IH. intros k' I. apply A. now right.
Qed.

(** X7. When the sentiment table has at most one row per date key and
    every trade's date key occurs in it, the join loses and repeats no
    trade: the merged frame has the trader table's date keys and the trader
    table's columns, in order and with unchanged values, followed by the
    sentiment table's columns, each holding for every trade the value of
    the one sentiment row with the trade's date key. *)
Theorem merge_keeps_trades (trader_df sentiment_df : DataFrame) :
  well_formed trader_df ->
  NoDup (date_key sentiment_df) ->
  (forall k, In k (date_key trader_df) -> In k (date_key sentiment_df)) ->
  date_key (merge_inner trader_df sentiment_df) = date_key trader_df /\
  nrows (merge_inner trader_df sentiment_df) = nrows trader_df /\
  columns (merge_inner trader_df sentiment_df) =
    (map (fun cs => (suffixed "_x" (names (columns sentiment_df)) (fst cs),
                     snd cs))
         (columns trader_df)
     ++ map (fun cs =>
               (suffixed "_y" (names (columns trader_df)) (fst cs),
                series_take
                  (map (fun k => key_index k (date_key sentiment_df))
                       (date_key trader_df))
                  (snd cs)))
            (columns sentiment_df))%list /\
  (forall k, In k (date_key trader_df) ->
             nth_error (date_key sentiment_df)
                       (key_index k (date_key sentiment_df)) = Some k).
Proof.
  intros W N A.
  assert (C : forall k, In k (date_key trader_df) ->
                        count_key k (date_key sentiment_df) = 1%nat).
  { intros k I. rewrite (count_key_nodup _ _ N).
    apply A, key_in_In in I. now rewrite I. }
  assert (K : date_key (merge_inner trader_df sentiment_df)
              = date_key trader_df).
  { unfold merge_inner. cbn [date_key]. now apply take_join_all. }
  split; [exact K|]. split; [unfold nrows; now rewrite K|].
  split.
  - unfold merge_inner. cbn [columns]. f_equal.
    + apply map_ext_in. intros [c s] I. cbn [fst snd]. f_equal.
      unfold well_formed in W. rewrite Forall_forall in W.
      apply series_take_all; [exact (W _ I) | exact C].
    + unfold join_pairs, enumerate.
      now rewrite (join_right_from _ _ 0 N A).
  - intros k I. apply key_index_nth. now apply A.
Qed.

Lemma merge_keeps_trades_witness :
  date_key (merge_inner sample_trader_frame sample_sentiment_frame)
  = date_key sample_trader_frame /\
  nrows (merge_inner sample_trader_frame sample_sentiment_frame)
  = nrows sample_trader_frame /\
  columns (merge_inner sample_trader_frame sample_sentiment_frame) =
    [("timestamp", SInt64 [5; 86400007; 86400008]%Z);
     ("closed pnl", SObject [OStr "$1,234.50"; OStr "-3"; OStr ""]);
     ("date", SObject [OStr "0"; OStr "1"; OStr "1"]);
     ("value", SInt64 [20; 80; 80]%Z)] /\
  (forall k, In k (date_key sample_trader_frame) ->
             nth_error (date_key sample_sentiment_frame)
                       (key_index k (date_key sample_sentiment_frame))
             = Some k).
Proof.
  apply (merge_keeps_trades sample_trader_frame sample_sentiment_frame).
  - repeat constructor.
  - simpl. repeat constructor; simpl; intuition discriminate.
  - simpl. intuition.
Defined.

(** ** Chart contents *)

Lemma label_is_eq (x : string) (l : option string) :
  label_is x l = true <-> l = Some x.
Proof.
  destruct l as [t|]; simpl; split; intro H; try discriminate.
  - apply String.eqb_eq in H. now subst.
  - injection H as ->. apply String.eqb_refl.
Qed.

Lemma grouped_means_keys (labels : list (option string))
  (vals : list pyfloat) (x : string) :
  In x (map fst (grouped_means labels vals))
  <-> In x order /\ In (Some x) labels.
Proof.
  unfold grouped_means. rewrite map_map. cbn [fst]. rewrite map_id.
  rewrite filter_In, existsb_exists. split.
  - intros [O [l [I L]]]. apply label_is_eq in L. subst l. tauto.
  - intros [O I]. split; [exact O|]. exists (Some x).
    split; [exact I | now apply label_is_eq].
Qed.

Lemma group_rows_nonempty {A : Type} (x : string)
  (labels : list (option string)) (vs : list A) :
  List.length labels = List.length vs ->
  In (Some x) labels ->
  group_rows x labels vs <> [].
Proof.
  intros L I. apply In_nth_error in I. destruct I as [i I].
  assert (B : (i < List.length vs)%nat).
  { rewrite <- L. apply nth_error_Some. congruence. }
  apply nth_error_Some in B.
  destruct (nth_error vs i) as [v|] eqn:V; [|congruence].
  pose proof (group_rows_In x labels vs i v I V) as G.
  destruct (group_rows x labels vs); [destruct G | discriminate].
Qed.

Lemma count_true_le (bs : list bool) :
  (count_true bs <= List.length bs)%nat.
Proof. unfold count_true. apply filter_length_le. Qed.

Lemma win_rate_bar_range (labels : list (option string)) (bs : list bool)
  (x : string) (v : pyfloat) :
  List.length labels = List.length bs ->
  In (x, v) (grouped_means labels (map bool_to_float bs)) ->
  exists q, v = Fin q /\ 0 <= q /\ q <= 1.
Proof.
  intros L I.
  assert (K : In x (map fst (grouped_means labels (map bool_to_float bs)))).
  { now apply (in_map fst) in I. }
  apply grouped_means_keys in K. destruct K as [_ K].
  unfold grouped_means in I. apply in_map_iff in I.
  destruct I as [x' [E _]]. injection E as -> <-.
  unfold group_mean. rewrite group_rows_map.
  pose proof (group_rows_nonempty x labels bs L K) as NE.
  destruct (mean_bools (group_rows x labels bs) NE) as [q [M Q]].
  exists q. split; [exact M|].
  pose proof (count_true_le (group_rows x labels bs)) as LE.
  assert (P : (0 < List.length (group_rows x labels bs))%nat).
  { destruct (group_rows x labels bs); [congruence | simpl; lia]. }
  rewrite Q. unfold Qle. cbn [Qnum Qden].
  rewrite Zpos_of_nat by exact P. split; lia.
Qed.

(** X8. Every bar of the win-rate chart is a number between 0 and 1: for
    an aligned frame Plot 3 never draws a [nan] or a value outside the
    axis range it sets. *)
Theorem win_rate_bars_in_range (merged_df : DataFrame) (w : world)
  (pnl keys : series) (vs : list pyfloat) :
  get_column "pnl_clean" (columns merged_df) = Some pnl ->
  numeric_values pnl = Some vs ->
  get_column "sentiment_bucket" (columns merged_df) = Some keys ->
  List.length (series_labels keys) = List.length vs ->
  exists df' bars,
    plot_win_rate merged_df w =
      (Ok df',
       log ["-> Saved professional images/win_rate_by_sentiment.png"]
           (with_chart (BarChart "images/win_rate_by_sentiment.png" bars)
                       w)) /\
    forall x v, In (x, v) bars -> exists q, v = Fin q /\ 0 <= q /\ q <= 1.
Proof.
  intros P V K L. do 2 eexists.
  split; [exact (plot_win_rate_run merged_df w pnl keys vs P V K)|].
  intros x v I. apply (win_rate_bar_range (series_labels keys)
                         (map is_win vs) x v); [|exact I].
  now rewrite length_map.
Qed.

Lemma win_rate_bars_in_range_witness :
  exists df' bars,
    plot_win_rate mixed_pnl empty_world =
      (Ok df',
       log ["-> Saved professional images/win_rate_by_sentiment.png"]
           (with_chart (BarChart "images/win_rate_by_sentiment.png" bars)
                       empty_world)) /\
    forall x v, In (x, v) bars -> exists q, v = Fin q /\ 0 <= q /\ q <= 1.
Proof.
  apply (win_rate_bars_in_range mixed_pnl empty_world
           (SFloat64 [Fin 5; Fin 0; Fin (-2); NaN])
           (SObject [OStr "Fear"; OStr "Fear"; OStr "Fear"; OStr "Fear"])
           [Fin 5; Fin 0; Fin (-2); NaN]);
    reflexivity.
Defined.

(** ** Column search on the merged frame *)

Lemma find_app_first {A : Type} (p : A -> bool) (l1 l2 : list A) :
  find p (l1 ++ l2)
  = match find p l1 with
    | Some x => Some x
    | None => find p l2
    end.
Proof.
  induction l1 as [|x l1 IH]; simpl; [reflexivity|].
  destruct (p x); [reflexivity | exact IH].
Qed.

Lemma merge_names (l r : DataFrame) :
  names (columns (merge_inner l r)) =
    (map (suffixed "_x" (names (columns r))) (names (columns l))
     ++ map (suffixed "_y" (names (columns l))) (names (columns r)))%list.
Proof.
  unfold merge_inner, names. cbn [columns].
  rewrite map_app, !map_map. reflexivity.
Qed.

(** X11. The column searches look at the trader table's columns first:
    when some trader column, under its name in the merged frame, passes a
    test, the column selected is a trader column; a sentiment column is
    selected only when no trader column passes, and then it is the first
    sentiment column that does. *)
Theorem search_prefers_trader_columns (p : string -> bool)
  (trader_df sentiment_df : DataFrame) :
  let ln := map (suffixed "_x" (names (columns sentiment_df)))
                (names (columns trader_df)) in
  let rn := map (suffixed "_y" (names (columns trader_df)))
                (names (columns sentiment_df)) in
  ((exists c, In c ln /\ p c = true) ->
   exists c, In c ln /\ p c = true /\
             first_column p (columns (merge_inner trader_df sentiment_df))
             = Some c) /\
  ((forall c, In c ln -> p c = false) ->
   first_column p (columns (merge_inner trader_df sentiment_df))
   = find p rn).
Proof.
  cbv zeta. unfold first_column. rewrite merge_names, find_app_first.
  split.
  - intros [c [I P]].
    destruct (find p (map (suffixed "_x" (names (columns sentiment_df)))
                          (names (columns trader_df)))) as [c'|] eqn:F.
    + apply find_some in F. exists c'. tauto.
    + pose proof (find_none _ _ F c I). congruence.
  - intro H.
    destruct (find p (map (suffixed "_x" (names (columns sentiment_df)))
                          (names (columns trader_df)))) as [c'|] eqn:F;
      [|reflexivity].
    apply find_some in F. destruct F as [I P]. rewrite (H _ I) in P.
    discriminate.
Qed.

Lemma search_prefers_trader_columns_witness :
  exists c,
    In c (map (suffixed "_x" (names (columns (one_score (SInt64 [20%Z])))))
              (names (columns trade_with_value))) /\
    is_value_name c = true /\
    first_column is_value_name
      (columns (merge_inner trade_with_value (one_score (SInt64 [20%Z]))))
    = Some c.
Proof.
  apply (search_prefers_trader_columns is_value_name trade_with_value
           (one_score (SInt64 [20%Z]))).
  exists "value_x". split; [now left | reflexivity].
Defined.

(** ** Bar labels *)

Lemma float_ge_zero (h : pyfloat) :
  float_ge h (Fin 0) = true
  <-> h = PosInf \/ exists q, h = Fin q /\ 0 <= q.
Proof.
  destruct h as [q| | |]; simpl.
  - rewrite negb_true_iff, Qltb_ge. split.
    + intro H. right. now exists q.
    + intros [H | [q' [E H]]]; [discriminate|]. now injection E as ->.
  - split; [now left | reflexivity].
  - split; [discriminate|]. intros [H | [q [E _]]]; discriminate.
  - split; [discriminate|]. intros [H | [q [E _]]]; discriminate.
Qed.

(** X12. [add_bar_labels] puts one label on each bar, at the middle of its
    top edge; the label is moved 8 points up when the height is a number
    that is at least 0 and 20 points down otherwise, which includes a
    height of [nan].  On the win-rate chart, whose bars are the grouped
    means of the Boolean win column, every label is above its bar. *)
Theorem bar_label_positions (fmt : pyfloat -> string)
  (patches : list patch) (labels : list (option string)) (bs : list bool) :
  List.length labels = List.length bs ->
  map patch_height patches
  = map snd (grouped_means labels (map bool_to_float bs)) ->
  (forall a, In a (add_bar_labels fmt patches) ->
             ann_xytext a = (0, 8)%Z) /\
  (forall (ps : list patch) i p,
     nth_error ps i = Some p ->
     exists a,
       nth_error (add_bar_labels fmt ps) i = Some a /\
       ann_text a = fmt (patch_height p) /\
       ann_xy a = (patch_x p + patch_width p / 2, patch_height p) /\
       (ann_xytext a = (0, 8)%Z \/ ann_xytext a = (0, -20)%Z) /\
       (ann_xytext a = (0, 8)%Z <->
        (patch_height p = PosInf \/
         exists q, patch_height p = Fin q /\ 0 <= q)) /\
       (patch_height p = NaN -> ann_xytext a = (0, -20)%Z)) /\
  (forall ps, List.length (add_bar_labels fmt ps) = List.length ps).
Proof.
  intros L H. split; [|split].
  - intros a I. unfold add_bar_labels in I. apply in_map_iff in I.
    destruct I as [p [<- I]]. cbn [ann_xytext].
    apply (in_map patch_height) in I. rewrite H in I.
    apply in_map_iff in I. destruct I as [[x v] [E I]]. cbn [snd] in E.
    destruct (win_rate_bar_range labels bs x v L I) as [q [V [Q0 _]]].
    rewrite <- E, V.
    replace (float_ge (Fin q) (Fin 0)) with true; [reflexivity|].
    symmetry. apply float_ge_zero. right. now exists q.
  - intros ps i p N. eexists. split.
    + unfold add_bar_labels. apply map_nth_error. exact N.
    + cbn [ann_text ann_xy ann_xytext]. repeat split.
      * destruct (float_ge (patch_height p) (Fin 0)); tauto.
      * intro E. apply float_ge_zero.
        destruct (float_ge (patch_height p) (Fin 0));
          [reflexivity | discriminate].
      * intro G. apply float_ge_zero in G. now rewrite G.
      * intro E. now rewrite E.
  - intro ps. unfold add_bar_labels. apply length_map.
Qed.

Lemma bar_label_positions_witness :
  Forall (fun a => ann_xytext a = (0, 8)%Z)
         (add_bar_labels (fun _ => "") sample_patches).
Proof.
  apply Forall_forall.
  apply (bar_label_positions (fun _ => "") sample_patches
           [Some "Extreme Fear"; Some "Extreme Greed"] [true; false]);
    reflexivity.
Defined.

(** ** The mapping steps keep the frame aligned *)

Lemma set_column_rows (n : nat) (c : string) (s : series) (t : table) :
  table_rows n t -> series_len s = n -> table_rows n (set_column c s t).
Proof.
  unfold table_rows. intros T S.
  induction T as [|[c0 s0] t H T IH]; simpl.
  - now repeat constructor.
  - destruct (String.eqb c0 c); constructor; assumption.
Qed.

Lemma assign_well_formed (c : string) (s : series) (m : DataFrame) :
  well_formed m -> series_len s = nrows m -> well_formed (assign c s m).
Proof. unfold well_formed, assign, nrows. cbn. apply set_column_rows. Qed.

Lemma well_formed_column (m : DataFrame) (c : string) (s : series) :
  well_formed m -> get_column c (columns m) = Some s ->
  series_len s = nrows m.
Proof.
  unfold well_formed. intros W G. apply get_column_pair in G.
  rewrite Forall_forall in W. exact (W _ G).
Qed.

Lemma series_items_len (s : series) :
  List.length (series_items s) = series_len s.
Proof. destruct s; simpl; apply length_map. Qed.

Lemma pnl_clean_of_len (s : series) :
  series_len (pnl_clean_of s) = series_len s.
Proof. destruct s; simpl; try reflexivity. apply length_map. Qed.

Lemma to_numeric_coerce_len (s : series) :
  series_len (to_numeric_coerce s) = series_len s.
Proof. destruct s; simpl; try reflexivity. apply length_map. Qed.

Lemma pnl_step_well_formed (m : DataFrame) :
  well_formed m -> well_formed (pnl_step m).
Proof.
  intro W. unfold pnl_step.
  destruct (first_column is_pnl_name (columns m)) as [c|]; [|exact W].
  destruct (get_column c (columns m)) as [col|] eqn:G; [|exact W].
  apply assign_well_formed; [exact W|].
  rewrite pnl_clean_of_len. exact (well_formed_column m c col W G).
Qed.

Lemma lev_step_well_formed (m : DataFrame) :
  well_formed m -> well_formed (lev_step m).
Proof.
  intro W. unfold lev_step. apply assign_well_formed; [exact W|].
  unfold lev_clean_of.
  destruct (first_column is_leverage_name (columns m)) as [c|];
    [|apply repeat_length].
  destruct (get_column c (columns m)) as [col|] eqn:G;
    [|apply repeat_length].
  rewrite to_numeric_coerce_len. exact (well_formed_column m c col W G).
Qed.

Lemma val_step_well_formed (m : DataFrame) :
  well_formed m -> well_formed (val_step m).
Proof.
  intro W. unfold val_step.
  destruct (first_column is_value_name (columns m)) as [c|]; [|exact W].
  destruct (get_column c (columns m)) as [col|] eqn:G; [|exact W].
  pose proof (well_formed_column m c col W G) as L.
  apply assign_well_formed; [now apply assign_well_formed|].
  unfold apply_get_bucket. cbn [series_len]. rewrite length_map.
  now rewrite series_items_len.
Qed.

Lemma steps_date_key (m : DataFrame) :
  date_key (val_step (lev_step (pnl_step m))) = date_key m.
Proof.
  unfold val_step, lev_step, pnl_step.
  repeat match goal with
         | |- context [match ?x with _ => _ end] => destruct x
         end; reflexivity.
Qed.

(** X13. On a frame with distinct column names the three mapping steps
    never raise, add no row and drop none, and keep an aligned frame
    aligned: each derived column ([pnl_clean], [lev_clean],
    [sentiment_value], [sentiment_bucket]) has exactly one value per merged
    row. *)
Theorem mapping_keeps_alignment (merged_df : DataFrame) (w : world) :
  NoDup (names (columns merged_df)) ->
  well_formed merged_df ->
  exists d1 d2 d3 w1,
    map_pnl merged_df w = (Ok d1, w1) /\
    map_leverage d1 w1 = (Ok d2, w1) /\
    map_sentiment d2 w1 = (Ok d3, w1) /\
    well_formed d3 /\
    date_key d3 = date_key merged_df /\
    (forall c s, get_column c (columns d3) = Some s ->
                 series_len s = nrows merged_df).
Proof.
  intros _ W.
  exists (pnl_step merged_df), (lev_step (pnl_step merged_df)),
         (val_step (lev_step (pnl_step merged_df))).
  eexists. split; [apply map_pnl_step|].
  split; [apply map_leverage_step|]. split; [apply map_sentiment_step|].
  assert (W3 : well_formed (val_step (lev_step (pnl_step merged_df)))).
  { now apply val_step_well_formed, lev_step_well_formed,
      pnl_step_well_formed. }
  split; [exact W3|]. split; [apply steps_date_key|].
  intros c s G. rewrite (well_formed_column _ c s W3 G).
  unfold nrows. now rewrite steps_date_key.
Qed.

Lemma mapping_keeps_alignment_witness :
  exists d1 d2 d3 w1,
    map_pnl text_pnl empty_world = (Ok d1, w1) /\
    map_leverage d1 w1 = (Ok d2, w1) /\
    map_sentiment d2 w1 = (Ok d3, w1) /\
    well_formed d3 /\
    date_key d3 = date_key text_pnl /\
    (forall c s, get_column c (columns d3) = Some s ->
                 series_len s = nrows text_pnl).
Proof.
  apply (mapping_keeps_alignment text_pnl empty_world).
  - constructor; [simpl; tauto | constructor].
  - repeat constructor.
Defined.

(** ** The mean profit/loss of a bucket *)

Lemma notnan_finite (l : list pyfloat) :
  no_infinity l = true ->
  filter (fun f => negb (float_isnan f)) l = map Fin (finite_values l).
Proof.
  induction l as [|v l IH]; simpl; [reflexivity|].
  intro H. apply andb_true_iff in H. destruct H as [V H].
  destruct v; try discriminate; simpl; now rewrite IH.
Qed.

Lemma float_sum_finite (qs : list Q) (a : Q) :
  fold_left float_add (map Fin qs) (Fin a) = Fin (fold_left Qplus qs a).
Proof.
  revert a. induction qs as [|q qs IH]; intro a; simpl; [reflexivity|].
  apply IH.
Qed.

Lemma mean_skipna_values (l : list pyfloat) :
  no_infinity l = true -> mean_skipna l = mean_of_values l.
Proof.
  intro H. unfold mean_skipna, mean_of_values.
  rewrite (notnan_finite l H).
  destruct (finite_values l) as [|q qs]; [reflexivity|].
  cbn [map]. unfold float_sum.
  change (Fin q :: map Fin qs) with (map Fin (q :: qs)).
  rewrite float_sum_finite. cbn [float_div_nat].
  now rewrite length_map.
Qed.

(** X14. The mean profit/loss Plot 1 draws for a bucket leaves the rows
    with a missing profit/loss out of both the sum and the count: for a
    bucket without infinite values it is the sum of the bucket's numbers
    over their count, and [nan] when the bucket has no number at all. *)
Theorem mean_pnl_skips_missing (merged_df : DataFrame) (w : world)
  (pnl keys : series) (vs : list pyfloat) (x : string) :
  get_column "pnl_clean" (columns merged_df) = Some pnl ->
  numeric_values pnl = Some vs ->
  get_column "sentiment_bucket" (columns merged_df) = Some keys ->
  In x order ->
  In (Some x) (series_labels keys) ->
  no_infinity (group_rows x (series_labels keys) vs) = true ->
  exists bars,
    plot_pnl merged_df w =
      (Ok tt,
       log ["-> Saved professional images/pnl_by_sentiment.png"]
           (with_chart (BarChart "images/pnl_by_sentiment.png" bars) w)) /\
    In (x, mean_of_values (group_rows x (series_labels keys) vs)) bars.
Proof.
  intros P V K O I F. eexists.
  split; [exact (plot_pnl_run merged_df w pnl keys vs P V K)|].
  unfold grouped_means. apply in_map_iff. exists x. split.
  - unfold group_mean. now rewrite mean_skipna_values.
  - apply filter_In. split; [exact O|]. apply existsb_exists.
    exists (Some x). split; [exact I | now apply label_is_eq].
Qed.

Lemma mean_pnl_skips_missing_witness :
  exists bars,
    plot_pnl pnl_with_gap empty_world =
      (Ok tt,
       log ["-> Saved professional images/pnl_by_sentiment.png"]
           (with_chart (BarChart "images/pnl_by_sentiment.png" bars)
                       empty_world)) /\
    In ("Greed", Fin ((0 + 4 + 2) / 2)) bars.
Proof.
  apply (mean_pnl_skips_missing pnl_with_gap empty_world
           (SFloat64 [Fin 4; NaN; Fin 2])
           (SObject [OStr "Greed"; OStr "Greed"; OStr "Greed"])
           [Fin 4; NaN; Fin 2] "Greed");
    try reflexivity.
  - simpl. tauto.
  - simpl. tauto.
Defined.

(** ** The charts of a run *)

Lemma ensure_images_dir_run (w : world) :
  exists w', ensure_images_dir w = (Ok tt, w') /\ charts w' = charts w.
Proof.
  unfold ensure_images_dir. destruct (images_dir w); eexists;
    split; reflexivity.
Qed.

Lemma plot_leverage_run (d : DataFrame) (w : world) (lev xs : series) :
  get_column "lev_clean" (columns d) = Some lev ->
  get_column "sentiment_value" (columns d) = Some xs ->
  exists w',
    plot_leverage d w = (Ok tt, w') /\
    charts w' =
      (charts w ++
       if notna_any lev
       then [ScatterChart "images/leverage_vs_sentiment.png" xs lev]
       else [])%list.
Proof.
  intros L S. unfold plot_leverage. rewrite L.
  destruct (notna_any lev).
  - unfold bind, getitem, ret. rewrite S, L. eexists. split; reflexivity.
  - rewrite print_log. eexists. split; [reflexivity|].
    cbn [charts log]. now rewrite app_nil_r.
Qed.

Lemma mapped_frame (m : DataFrame) (pc vc : string) (col_p col_v : series) :
  first_column is_pnl_name (columns m) = Some pc ->
  get_column pc (columns m) = Some col_p ->
  first_column is_value_name (columns m) = Some vc ->
  get_column vc (columns m) = Some col_v ->
  let d := val_step (lev_step (pnl_step m)) in
  get_column "pnl_clean" (columns d) = Some (pnl_clean_of col_p) /\
  get_column "sentiment_bucket" (columns d)
  = Some (apply_get_bucket col_v) /\
  get_column "sentiment_value" (columns d) = Some col_v /\
  get_column "lev_clean" (columns d) = Some (lev_clean_of m).
Proof.
  intros FP GP FV GV d.
  assert (P1 : pnl_step m = assign "pnl_clean" (pnl_clean_of col_p) m).
  { unfold pnl_step. now rewrite FP, GP. }
  assert (V1 : first_column is_value_name (columns (lev_step (pnl_step m)))
               = Some vc).
  { now rewrite value_search_mapped. }
  assert (NV : forall c, is_value_name c = false -> c <> vc).
  { intros c H E. subst c. apply first_column_holds in FV. congruence. }
  assert (V2 : get_column vc (columns (lev_step (pnl_step m)))
               = Some col_v).
  { unfold lev_step. rewrite P1. cbn [assign columns].
    rewrite !get_set_other by (apply NV; reflexivity). exact GV. }
  assert (D : d = assign "sentiment_bucket" (apply_get_bucket col_v)
                    (assign "sentiment_value" col_v
                            (lev_step (pnl_step m)))).
  { subst d. unfold val_step. now rewrite V1, V2. }
  split.
  { subst d. rewrite mapped_pnl_clean, P1. cbn [assign columns].
    apply get_set_same. }
  split.
  { rewrite D. cbn [assign columns]. apply get_set_same. }
  split.
  { rewrite D. cbn [assign columns]. rewrite get_set_other by discriminate.
    apply get_set_same. }
  subst d. rewrite mapped_lev_clean. now rewrite lev_clean_of_pnl_step.
Qed.

(** The charts the analyzer writes when it finds a profit/loss column and
    a sentiment score column. *)
Lemma analyzer_charts (trader_df sentiment_df : DataFrame) (w : world)
  (pc vc : string) (col_p col_v : series) (vs : list pyfloat) :
  df_empty (merge_inner trader_df sentiment_df) = false ->
  first_column is_pnl_name
    (columns (merge_inner trader_df sentiment_df)) = Some pc ->
  get_column pc (columns (merge_inner trader_df sentiment_df))
  = Some col_p ->
  numeric_values (pnl_clean_of col_p) = Some vs ->
  first_column is_value_name
    (columns (merge_inner trader_df sentiment_df)) = Some vc ->
  get_column vc (columns (merge_inner trader_df sentiment_df))
  = Some col_v ->
  charts (snd (analyze_and_visualize trader_df sentiment_df w)) =
    (charts w
     ++ BarChart "images/pnl_by_sentiment.png"
          (grouped_means (series_labels (apply_get_bucket col_v)) vs)
        :: leverage_charts (merge_inner trader_df sentiment_df) col_v
     ++ [BarChart "images/win_rate_by_sentiment.png"
           (grouped_means (series_labels (apply_get_bucket col_v))
                          (map bool_to_float (map is_win vs)))])%list.
Proof.
  set (m := merge_inner trader_df sentiment_df).
  intros EM FP GP NV FV GV.
  destruct (mapped_frame m pc vc col_p col_v FP GP FV GV)
    as (G1 & G2 & G3 & G4).
  set (d := val_step (lev_step (pnl_step m))) in *.
  destruct (analyze_and_visualize trader_df sentiment_df w) as [r wf] eqn:E.
  unfold analyze_and_visualize in E. fold m in E.
  unfold bind at 1 in E. rewrite print_log in E. cbv beta iota zeta in E.
  fold m in E.
  unfold bind at 1 in E. rewrite print_log in E. cbv beta iota in E.
  rewrite EM in E.
  unfold bind at 1 in E. rewrite map_pnl_step in E. cbv beta iota in E.
  rewrite FP in E. cbn [is_some] in E.
  unfold bind at 1 in E. rewrite map_leverage_step in E. cbv beta iota in E.
  unfold bind at 1 in E. rewrite map_sentiment_step in E.
  cbv beta iota in E. fold d in E.
  unfold bind at 1 in E. rewrite print_log in E. cbv beta iota in E.
  unfold bind at 1 in E.
  match type of E with
  | context [ensure_images_dir ?v] =>
      destruct (ensure_images_dir_run v) as (w2 & R2 & C2)
  end.
  rewrite R2 in E. cbv beta iota in E.
  unfold bind at 1 in E.
  rewrite (plot_pnl_run d w2 _ _ vs G1 NV G2) in E. cbv beta iota in E.
  unfold bind at 1 in E.
  match type of E with
  | context [plot_leverage d ?v] =>
      destruct (plot_leverage_run d v _ _ G4 G3) as (w3 & R3 & C3)
  end.
  rewrite R3 in E. cbv beta iota in E.
  unfold bind at 1 in E.
  rewrite (plot_win_rate_run d w3 _ _ vs G1 NV G2) in E.
  cbv beta iota in E.
  unfold bind in E. rewrite print_log in E. unfold ret in E.
  injection E as _ <-. cbn [snd charts log with_chart].
  rewrite C3. cbn [charts log with_chart]. rewrite C2.
  cbn [charts log]. unfold leverage_charts.
  rewrite <- !app_assoc. reflexivity.
Qed.

Lemma grouped_means_bar (labels : list (option string))
  (vals : list pyfloat) (x : string) :
  In x order -> In (Some x) labels ->
  In (x, group_mean x labels vals) (grouped_means labels vals).
Proof.
  intros O I. unfold grouped_means. apply in_map_iff. exists x.
  split; [reflexivity|]. apply filter_In. split; [exact O|].
  apply existsb_exists. exists (Some x).
  split; [exact I | now apply label_is_eq].
Qed.

Lemma win_rate_value (labels : list (option string)) (vs : list pyfloat)
  (x : string) :
  List.length labels = List.length vs ->
  In (Some x) labels ->
  exists q,
    group_mean x labels (map bool_to_float (map is_win vs)) = Fin q /\
    q == Z.of_nat (wins_of x labels vs) # Pos.of_nat (rows_of x labels).
Proof.
  intros L I.
  pose proof (group_rows_nonempty x labels vs L I) as NE.
  assert (NE' : map is_win (group_rows x labels vs) <> []).
  { destruct (group_rows x labels vs); [congruence | discriminate]. }
  destruct (mean_bools _ NE') as [q [M Q]].
  rewrite count_true_map, length_map, (group_rows_length x labels vs L) in Q.
  exists q. split; [|exact Q].
  unfold group_mean. now rewrite !group_rows_map.
Qed.

(** C9. The aggregates are a function of the input data.  (1) Two runs of
    the analyzer on the same two tables, from any two states of the
    console, the images directory and the chart files, return the same
    result and write the same charts.  (2) So do two runs of the whole
    pipeline from two states with the same input files.  (3) When the join
    has rows and a profit/loss and a sentiment score column are found,
    both runs write the mean-PnL chart and the win-rate chart with the same
    bars, and these are determined by the merged rows alone: for every
    bucket with a row, the mean-PnL bar is the mean of the bucket's
    non-missing profit/loss values (their sum over their count), and the
    win-rate bar is the number of the bucket's rows with a positive
    profit/loss over the number of its rows. *)
Theorem C9_aggregates_deterministic
  (to_datetime_ms to_datetime_mixed : series -> list (option Z))
  (show_date : option Z -> string) :
  (forall trader_df sentiment_df w1 w2,
     fst (analyze_and_visualize trader_df sentiment_df w1)
     = fst (analyze_and_visualize trader_df sentiment_df w2) /\
     exists cs,
       charts (snd (analyze_and_visualize trader_df sentiment_df w1))
       = (charts w1 ++ cs)%list /\
       charts (snd (analyze_and_visualize trader_df sentiment_df w2))
       = (charts w2 ++ cs)%list) /\
  (forall w1 w2,
     same_inputs w1 w2 ->
     fst (main to_datetime_ms to_datetime_mixed show_date w1)
     = fst (main to_datetime_ms to_datetime_mixed show_date w2) /\
     exists cs,
       charts (snd (main to_datetime_ms to_datetime_mixed show_date w1))
       = (charts w1 ++ cs)%list /\
       charts (snd (main to_datetime_ms to_datetime_mixed show_date w2))
       = (charts w2 ++ cs)%list) /\
  (forall trader_df sentiment_df pc vc col_p col_v vs w1 w2,
     plain_names trader_df sentiment_df ->
     df_empty (merge_inner trader_df sentiment_df) = false ->
     first_column is_pnl_name
       (columns (merge_inner trader_df sentiment_df)) = Some pc ->
     get_column pc (columns (merge_inner trader_df sentiment_df))
     = Some col_p ->
     numeric_values (pnl_clean_of col_p) = Some vs ->
     first_column is_value_name
       (columns (merge_inner trader_df sentiment_df)) = Some vc ->
     get_column vc (columns (merge_inner trader_df sentiment_df))
     = Some col_v ->
     List.length (series_labels (apply_get_bucket col_v))
     = List.length vs ->
     let labels := series_labels (apply_get_bucket col_v) in
     let perf := grouped_means labels vs in
     let win_rate :=
       grouped_means labels (map bool_to_float (map is_win vs)) in
     (exists between,
        charts (snd (analyze_and_visualize trader_df sentiment_df w1))
        = (charts w1
           ++ BarChart "images/pnl_by_sentiment.png" perf
              :: between
           ++ [BarChart "images/win_rate_by_sentiment.png" win_rate])%list /\
        charts (snd (analyze_and_visualize trader_df sentiment_df w2))
        = (charts w2
           ++ BarChart "images/pnl_by_sentiment.png" perf
              :: between
           ++ [BarChart "images/win_rate_by_sentiment.png" win_rate])%list)
     /\
     forall x, In x order -> In (Some x) labels ->
       (exists v,
          In (x, v) perf /\
          (no_infinity (group_rows x labels vs) = true ->
           v = mean_of_values (group_rows x labels vs))) /\
       (exists q,
          In (x, Fin q) win_rate /\
          q == Z.of_nat (wins_of x labels vs)
               # Pos.of_nat (rows_of x labels))).
Proof.
  split; [|split].
  - intros t s w1 w2.
    destruct (agree_analyze (fun _ _ => True) (fun _ _ _ _ _ _ _ _ _ => I)
                t s w1 w2 I) as (E & _ & C).
    split; assumption.
  - intros w1 w2 H.
    destruct (agree_main same_inputs
                (fun w1 w2 _ _ _ _ _ _ (S : same_inputs w1 w2) => S)
                (fun _ _ S => S)
                to_datetime_ms to_datetime_mixed show_date w1 w2 H)
      as (E & _ & C).
    split; assumption.
  - intros t s pc vc col_p col_v vs w1 w2 _ EM FP GP NV FV GV L.
    cbv zeta. split.
    { exists (leverage_charts (merge_inner t s) col_v). split.
      - exact (analyzer_charts t s w1 pc vc col_p col_v vs
                 EM FP GP NV FV GV).
      - exact (analyzer_charts t s w2 pc vc col_p col_v vs
                 EM FP GP NV FV GV). }
    intros x O I. split.
    + exists (group_mean x (series_labels (apply_get_bucket col_v)) vs).
      split; [now apply grouped_means_bar|].
      intro F. unfold group_mean. now apply mean_skipna_values.
    + destruct (win_rate_value _ vs x L I) as [q [M Q]].
      exists q. split; [|exact Q]. rewrite <- M.
      now apply grouped_means_bar.
Qed.

Lemma C9_aggregates_deterministic_witness :
  (exists between,
     charts (snd (analyze_and_visualize sample_trader_frame
                    sample_sentiment_frame fresh_world))
     = (charts fresh_world
        ++ BarChart "images/pnl_by_sentiment.png"
             [("Extreme Fear", Fin (2469 # 2)); ("Extreme Greed", Fin (-3))]
           :: between
        ++ [BarChart "images/win_rate_by_sentiment.png"
              [("Extreme Fear", Fin 1); ("Extreme Greed", Fin (0 # 2))]])%list
     /\
     charts (snd (analyze_and_visualize sample_trader_frame
                    sample_sentiment_frame used_world))
     = (charts used_world
        ++ BarChart "images/pnl_by_sentiment.png"
             [("Extreme Fear", Fin (2469 # 2)); ("Extreme Greed", Fin (-3))]
           :: between
        ++ [BarChart "images/win_rate_by_sentiment.png"
              [("Extreme Fear", Fin 1); ("Extreme Greed", Fin (0 # 2))]])%list)
  /\
  forall x,
    In x order ->
    In (Some x)
       [Some "Extreme Fear"; Some "Extreme Greed"; Some "Extreme Greed"] ->
    (exists v,
       In (x, v)
          [("Extreme Fear", Fin (2469 # 2)); ("Extreme Greed", Fin (-3))] /\
       (no_infinity
          (group_rows x
             [Some "Extreme Fear"; Some "Extreme Greed";
              Some "Extreme Greed"]
             [Fin (2469 # 2); Fin (-3); NaN]) = true ->
        v = mean_of_values
              (group_rows x
                 [Some "Extreme Fear"; Some "Extreme Greed";
                  Some "Extreme Greed"]
                 [Fin (2469 # 2); Fin (-3); NaN]))) /\
    (exists q,
       In (x, Fin q)
          [("Extreme Fear", Fin 1); ("Extreme Greed", Fin (0 # 2))] /\
       q == Z.of_nat
              (wins_of x
                 [Some "Extreme Fear"; Some "Extreme Greed";
                  Some "Extreme Greed"]
                 [Fin (2469 # 2); Fin (-3); NaN])
            # Pos.of_nat
                (rows_of x
                   [Some "Extreme Fear"; Some "Extreme Greed";
                    Some "Extreme Greed"])).
Proof.
  destruct (C9_aggregates_deterministic sample_ms sample_mixed sample_show)
    as (_ & _ & H).
  apply (H sample_trader_frame sample_sentiment_frame
           "closed pnl" "value"
           (SObject [OStr "$1,234.50"; OStr "-3"; OStr ""])
           (SInt64 [20; 80; 80]%Z)
           [Fin (2469 # 2); Fin (-3); NaN] fresh_world used_world);
    try reflexivity.
  split.
  - simpl. repeat constructor; simpl; intuition discriminate.
  - simpl. intros h [<- | [<- | [<- | []]]]; split; simpl;
      intuition discriminate.
Defined.

(** ** The unguarded read of Plot 2 *)

Lemma pnl_step_other (m : DataFrame) (c : string) :
  c <> "pnl_clean" ->
  get_column c (columns (pnl_step m)) = get_column c (columns m).
Proof.
  intro N. unfold pnl_step.
  destruct (first_column is_pnl_name (columns m)) as [p|]; [|reflexivity].
  destruct (get_column p (columns m)) as [col|]; [|reflexivity].
  cbn [assign columns]. apply get_set_other. congruence.
Qed.

(** X1. The analyzer's one unguarded column read.  On a merged frame with
    rows and plain, distinct column names, with no column that passes the
    sentiment score test, no [sentiment_bucket] column, and a numeric
    leverage column that holds at least one value, the analyzer raises
    [KeyError: 'sentiment_value'] at Plot 2, and no chart has been written
    by then. *)
Theorem leverage_without_score_raises (trader_df sentiment_df : DataFrame)
  (w : world) (c : string) (col : series) :
  plain_names trader_df sentiment_df ->
  df_empty (merge_inner trader_df sentiment_df) = false ->
  first_column is_value_name
    (columns (merge_inner trader_df sentiment_df)) = None ->
  ~ In "sentiment_bucket"
       (names (columns (merge_inner trader_df sentiment_df))) ->
  first_column is_leverage_name
    (columns (merge_inner trader_df sentiment_df)) = Some c ->
  get_column c (columns (merge_inner trader_df sentiment_df)) = Some col ->
  is_object col = false ->
  notna_any col = true ->
  fst (analyze_and_visualize trader_df sentiment_df w)
  = Raise (KeyError "sentiment_value") /\
  charts (snd (analyze_and_visualize trader_df sentiment_df w)) = charts w.
Proof.
  set (m := merge_inner trader_df sentiment_df).
  intros _ EM FV NB FL GL OB NA.
  set (d := val_step (lev_step (pnl_step m))).
  assert (LC : lev_clean_of m = col).
  { unfold lev_clean_of. rewrite FL, GL.
    destruct col; try reflexivity. discriminate. }
  assert (G4 : get_column "lev_clean" (columns d) = Some col).
  { subst d. rewrite mapped_lev_clean, lev_clean_of_pnl_step.
    now rewrite LC. }
  assert (G3 : get_column "sentiment_value" (columns d) = None).
  { pose proof (mapped_sentiment_value m) as SV. fold d in SV.
    rewrite FV in SV.
    destruct (get_column "sentiment_value" (columns d));
      [discriminate | reflexivity]. }
  assert (G2 : has_column "sentiment_bucket" d = false).
  { destruct (has_column "sentiment_bucket" d) eqn:H; [|reflexivity].
    apply has_column_get in H. destruct H as [s H]. exfalso.
    subst d. unfold val_step in H. rewrite value_search_mapped, FV in H.
    unfold lev_step in H. cbn [assign columns] in H.
    rewrite get_set_other in H by discriminate.
    rewrite pnl_step_other in H by discriminate.
    apply NB. apply name_in_In. exact (get_column_has _ _ m H). }
  destruct (analyze_and_visualize trader_df sentiment_df w) as [r wf] eqn:E.
  unfold analyze_and_visualize in E. fold m in E.
  unfold bind at 1 in E. rewrite print_log in E. cbv beta iota zeta in E.
  fold m in E.
  unfold bind at 1 in E. rewrite print_log in E. cbv beta iota in E.
  rewrite EM in E.
  unfold bind at 1 in E. rewrite map_pnl_step in E. cbv beta iota in E.
  unfold bind at 1 in E. rewrite map_leverage_step in E. cbv beta iota in E.
  unfold bind at 1 in E. rewrite map_sentiment_step in E.
  cbv beta iota in E. fold d in E.
  unfold bind at 1 in E. rewrite print_log in E. cbv beta iota in E.
  unfold bind at 1 in E.
  match type of E with
  | context [ensure_images_dir ?v] =>
      destruct (ensure_images_dir_run v) as (w2 & R2 & C2)
  end.
  rewrite R2 in E. cbv beta iota in E.
  assert (P1 : plot_pnl d w2 = (Ok tt, w2)).
  { unfold plot_pnl. now rewrite G2, andb_false_r. }
  unfold bind at 1 in E. rewrite P1 in E. cbv beta iota in E.
  destruct (plot_leverage_cases d w2 col G4) as [_ Run].
  destruct (Run NA) as [Bad _].
  unfold bind at 1 in E. rewrite (Bad G3) in E.
  injection E as <- <-. cbn [fst snd]. split; [reflexivity|].
  rewrite C2.
  destruct (is_some (first_column is_pnl_name (columns m))); reflexivity.
Qed.

Lemma leverage_without_score_raises_witness :
  fst (analyze_and_visualize leveraged_trade scores_unnamed empty_world)
  = Raise (KeyError "sentiment_value") /\
  charts (snd (analyze_and_visualize leveraged_trade scores_unnamed
                 empty_world))
  = charts empty_world.
Proof.
  apply (leverage_without_score_raises leveraged_trade scores_unnamed
           empty_world "leverage" (SInt64 [3%Z]));
    try reflexivity.
  - split.
    + simpl. repeat constructor; simpl; intuition discriminate.
    + simpl. intros h [<- | [<- | [<- | []]]]; split; simpl;
        intuition discriminate.
  - simpl. intuition discriminate.
Defined.

(** The separators 28 to 31 are removed by [str.strip] but are no white
    space for [float]. *)
Example float_space_samples :
  parse_float true (String (ascii_of_nat 28) "25") = None /\
  strip (String (ascii_of_nat 28) "date") = "date" /\
  get_bucket (PStr (String (ascii_of_nat 28) "25")) = "Unknown".
Proof. repeat split; vm_compute; reflexivity. Qed.
